(** * pusher-js: the connection manager

    A shallow embedding of [src/connection/connection_manager.js].

    The manager is a single-threaded object driven by calls of its public
    methods and by callbacks of four collaborators (strategy, network
    monitor, timers, connection).  Every method becomes a function on a
    [World]: the manager's own fields together with the objects it shares
    with its collaborators (timers, connection attempts, connections), kept
    in stores and referred to by index, and the list of events it has
    emitted.  A method that can raise returns an [Outcome].

    Timeline reporting ([sendTimeline], bound on "connected" and run every
    60 seconds) and [Pusher.debug] only talk to the timeline sender and the
    log; they are left out, the [timelineSender] field is kept. *)

From Stdlib Require Import ZArith.
From stdpp Require Import base option list strings relations.

Local Open Scope string_scope.
Local Open Scope Z_scope.
Local Open Scope list_scope.

(** ** Values handed around *)

(** The closures the manager gives to [new Pusher.Timer(delay, callback)],
    one constructor per function literal in the source. *)
Inductive TimerCallback :=
  | RetryCallback        (* retryIn: disconnect(); connect() *)
  | UnavailableCallback  (* setUnavailableTimer: updateState("unavailable") *)
  | ActivityCallback     (* resetActivityCheck, outer: ping and arm the pong timer *)
  | PongCallback.        (* resetActivityCheck, inner: connection.close() *)

Global Instance TimerCallback_eq_dec : EqDecision TimerCallback.
Proof. solve_decision. Defined.

(** Modelled from the spec: [Pusher.Timer] is not among the sources.  A timer
    is built from a delay and a callback, fires at most once, and
    [ensureAborted] is safe to call several times or after firing. *)
Module Timer.
Inductive status := Live | Fired | Aborted.

Record t := Build {
  delay : Z;
  callback : TimerCallback;
  state : status
}.

Definition is_live (x : t) : bool :=
  match state x with Live => true | _ => false end.

Definition ensureAborted (x : t) : t :=
  match state x with
  | Live => Build (delay x) (callback x) Aborted
  | _ => x
  end.

Definition fired (x : t) : t := Build (delay x) (callback x) Fired.
End Timer.

(** Modelled from the spec: the strategy object ([options.getStrategy(...)])
    is not among the sources.  It answers [isSupported()] and starts
    abortable attempts. *)
Module Strategy.
Record t := Build {
  encrypted : bool;
  isSupported : bool
}.
End Strategy.

(** Modelled from the spec: the attempt handle returned by
    [strategy.connect(retryCount, callback)].  Its callback is invoked at most
    once and never after [abort()]. *)
Module Runner.
Record t := Build {
  retryCount : Z;
  started_on : Strategy.t;
  aborted : bool;
  called : bool
}.

Definition pending (r : t) : bool := negb (aborted r) && negb (called r).
Definition abort (r : t) : t := Build (retryCount r) (started_on r) true (called r).
Definition deliver (r : t) : t := Build (retryCount r) (started_on r) (aborted r) true.
End Runner.

(** What a connection was asked to transmit. *)
Inductive Sent :=
  | Raw (data : string)
  | Event (name data : string) (channel : option string).

(** Modelled from the spec: [Pusher.Connection] is not among the sources.
    [send] and [send_event] answer a boolean, [close()] asks the transport to
    close, [supportsPing()] tells whether the transport pings natively, and
    [bind]/[unbind] register the manager's callbacks by event name. *)
Module Connection.
Record t := Build {
  id : string;
  supportsPing : bool;
  writable : bool;
  bound : list string;
  sent : list Sent;
  close_calls : nat
}.

Definition send (data : string) (c : t) : bool * t :=
  (writable c,
   Build (id c) (supportsPing c) (writable c) (bound c) (sent c ++ [Raw data]) (close_calls c)).

Definition send_event (name data : string) (channel : option string) (c : t) : bool * t :=
  (writable c,
   Build (id c) (supportsPing c) (writable c) (bound c)
         (sent c ++ [Event name data channel]) (close_calls c)).

Definition close (c : t) : t :=
  Build (id c) (supportsPing c) (writable c) (bound c) (sent c) (S (close_calls c)).

Definition bind (event : string) (c : t) : t :=
  Build (id c) (supportsPing c) (writable c) (bound c ++ [event]) (sent c) (close_calls c).

Definition unbind (event : string) (c : t) : t :=
  Build (id c) (supportsPing c) (writable c)
        (filter (λ e, e ≠ event) (bound c)) (sent c) (close_calls c).
End Connection.

(** The result a strategy hands to its callback: an error, or a handshake
    [{action: ..., connection: ...}]. *)
Record Handshake := {
  action : string;
  hs_connection : option Connection.t
}.

Inductive StrategyResult :=
  | Failure (error : string)
  | Success (handshake : Handshake).

(** The constructor's [options]. *)
Record Options := {
  opt_encrypted : bool;
  unavailableTimeout : Z;
  activityTimeout : Z;
  pongTimeout : Z;
  getStrategy : string → bool → Strategy.t
}.

(** Data carried by an emitted event. *)
Inductive Payload :=
  | Undefined
  | StateChange (previous current : string)
  | Message (message : string)
  | WebSocketError (error : string).

(** An emitted event, with what a subscriber sees of the manager when its
    handler runs: the state and the connection held at that moment. *)
Record Emitted := {
  ev_name : string;
  ev_data : Payload;
  ev_state : string;
  ev_connection : option nat
}.

(** ** The world *)

Record World := {
  (* fields of the manager *)
  key : string;
  options : Options;
  state : string;
  connection : option nat;
  encrypted : bool;
  strategy : Strategy.t;
  runner : option nat;
  retryTimer : option nat;
  unavailableTimer : option nat;
  activityTimer : option nat;
  socket_id : option string;
  timelineSender : option bool;
  (* objects shared with the collaborators *)
  timers : list Timer.t;
  runners : list Runner.t;
  connections : list Connection.t;
  (* Pusher.Network.isOnline() *)
  isOnline : option bool;
  (* events emitted so far, oldest first *)
  emitted : list Emitted
}.

Definition set_state (v : string) (w : World) : World :=
  {| key := key w; options := options w; state := v; connection := connection w;
     encrypted := encrypted w; strategy := strategy w; runner := runner w;
     retryTimer := retryTimer w; unavailableTimer := unavailableTimer w;
     activityTimer := activityTimer w; socket_id := socket_id w;
     timelineSender := timelineSender w; timers := timers w; runners := runners w;
     connections := connections w; isOnline := isOnline w; emitted := emitted w |}.

Definition set_connection (v : option nat) (w : World) : World :=
  {| key := key w; options := options w; state := state w; connection := v;
     encrypted := encrypted w; strategy := strategy w; runner := runner w;
     retryTimer := retryTimer w; unavailableTimer := unavailableTimer w;
     activityTimer := activityTimer w; socket_id := socket_id w;
     timelineSender := timelineSender w; timers := timers w; runners := runners w;
     connections := connections w; isOnline := isOnline w; emitted := emitted w |}.

Definition set_encrypted (v : bool) (w : World) : World :=
  {| key := key w; options := options w; state := state w; connection := connection w;
     encrypted := v; strategy := strategy w; runner := runner w;
     retryTimer := retryTimer w; unavailableTimer := unavailableTimer w;
     activityTimer := activityTimer w; socket_id := socket_id w;
     timelineSender := timelineSender w; timers := timers w; runners := runners w;
     connections := connections w; isOnline := isOnline w; emitted := emitted w |}.

Definition set_strategy (v : Strategy.t) (w : World) : World :=
  {| key := key w; options := options w; state := state w; connection := connection w;
     encrypted := encrypted w; strategy := v; runner := runner w;
     retryTimer := retryTimer w; unavailableTimer := unavailableTimer w;
     activityTimer := activityTimer w; socket_id := socket_id w;
     timelineSender := timelineSender w; timers := timers w; runners := runners w;
     connections := connections w; isOnline := isOnline w; emitted := emitted w |}.

Definition set_runner (v : option nat) (w : World) : World :=
  {| key := key w; options := options w; state := state w; connection := connection w;
     encrypted := encrypted w; strategy := strategy w; runner := v;
     retryTimer := retryTimer w; unavailableTimer := unavailableTimer w;
     activityTimer := activityTimer w; socket_id := socket_id w;
     timelineSender := timelineSender w; timers := timers w; runners := runners w;
     connections := connections w; isOnline := isOnline w; emitted := emitted w |}.

Definition set_retryTimer (v : option nat) (w : World) : World :=
  {| key := key w; options := options w; state := state w; connection := connection w;
     encrypted := encrypted w; strategy := strategy w; runner := runner w;
     retryTimer := v; unavailableTimer := unavailableTimer w;
     activityTimer := activityTimer w; socket_id := socket_id w;
     timelineSender := timelineSender w; timers := timers w; runners := runners w;
     connections := connections w; isOnline := isOnline w; emitted := emitted w |}.

Definition set_unavailableTimer (v : option nat) (w : World) : World :=
  {| key := key w; options := options w; state := state w; connection := connection w;
     encrypted := encrypted w; strategy := strategy w; runner := runner w;
     retryTimer := retryTimer w; unavailableTimer := v;
     activityTimer := activityTimer w; socket_id := socket_id w;
     timelineSender := timelineSender w; timers := timers w; runners := runners w;
     connections := connections w; isOnline := isOnline w; emitted := emitted w |}.

Definition set_activityTimer (v : option nat) (w : World) : World :=
  {| key := key w; options := options w; state := state w; connection := connection w;
     encrypted := encrypted w; strategy := strategy w; runner := runner w;
     retryTimer := retryTimer w; unavailableTimer := unavailableTimer w;
     activityTimer := v; socket_id := socket_id w;
     timelineSender := timelineSender w; timers := timers w; runners := runners w;
     connections := connections w; isOnline := isOnline w; emitted := emitted w |}.

Definition set_socket_id (v : option string) (w : World) : World :=
  {| key := key w; options := options w; state := state w; connection := connection w;
     encrypted := encrypted w; strategy := strategy w; runner := runner w;
     retryTimer := retryTimer w; unavailableTimer := unavailableTimer w;
     activityTimer := activityTimer w; socket_id := v;
     timelineSender := timelineSender w; timers := timers w; runners := runners w;
     connections := connections w; isOnline := isOnline w; emitted := emitted w |}.

Definition set_timelineSender (v : option bool) (w : World) : World :=
  {| key := key w; options := options w; state := state w; connection := connection w;
     encrypted := encrypted w; strategy := strategy w; runner := runner w;
     retryTimer := retryTimer w; unavailableTimer := unavailableTimer w;
     activityTimer := activityTimer w; socket_id := socket_id w;
     timelineSender := v; timers := timers w; runners := runners w;
     connections := connections w; isOnline := isOnline w; emitted := emitted w |}.

Definition set_timers (v : list Timer.t) (w : World) : World :=
  {| key := key w; options := options w; state := state w; connection := connection w;
     encrypted := encrypted w; strategy := strategy w; runner := runner w;
     retryTimer := retryTimer w; unavailableTimer := unavailableTimer w;
     activityTimer := activityTimer w; socket_id := socket_id w;
     timelineSender := timelineSender w; timers := v; runners := runners w;
     connections := connections w; isOnline := isOnline w; emitted := emitted w |}.

Definition set_runners (v : list Runner.t) (w : World) : World :=
  {| key := key w; options := options w; state := state w; connection := connection w;
     encrypted := encrypted w; strategy := strategy w; runner := runner w;
     retryTimer := retryTimer w; unavailableTimer := unavailableTimer w;
     activityTimer := activityTimer w; socket_id := socket_id w;
     timelineSender := timelineSender w; timers := timers w; runners := v;
     connections := connections w; isOnline := isOnline w; emitted := emitted w |}.

Definition set_connections (v : list Connection.t) (w : World) : World :=
  {| key := key w; options := options w; state := state w; connection := connection w;
     encrypted := encrypted w; strategy := strategy w; runner := runner w;
     retryTimer := retryTimer w; unavailableTimer := unavailableTimer w;
     activityTimer := activityTimer w; socket_id := socket_id w;
     timelineSender := timelineSender w; timers := timers w; runners := runners w;
     connections := v; isOnline := isOnline w; emitted := emitted w |}.

Definition set_isOnline (v : option bool) (w : World) : World :=
  {| key := key w; options := options w; state := state w; connection := connection w;
     encrypted := encrypted w; strategy := strategy w; runner := runner w;
     retryTimer := retryTimer w; unavailableTimer := unavailableTimer w;
     activityTimer := activityTimer w; socket_id := socket_id w;
     timelineSender := timelineSender w; timers := timers w; runners := runners w;
     connections := connections w; isOnline := v; emitted := emitted w |}.

Definition set_emitted (v : list Emitted) (w : World) : World :=
  {| key := key w; options := options w; state := state w; connection := connection w;
     encrypted := encrypted w; strategy := strategy w; runner := runner w;
     retryTimer := retryTimer w; unavailableTimer := unavailableTimer w;
     activityTimer := activityTimer w; socket_id := socket_id w;
     timelineSender := timelineSender w; timers := timers w; runners := runners w;
     connections := connections w; isOnline := isOnline w; emitted := v |}.

(** A call either returns or raises; in both cases the world is the one the
    call left behind. *)
Inductive Exception := TypeError.

Inductive Outcome :=
  | Returned (w : World)
  | Threw (e : Exception) (w : World).

Definition world_of (o : Outcome) : World :=
  match o with Returned w => w | Threw _ w => w end.

Definition and_then (o : Outcome) (k : World → Outcome) : Outcome :=
  match o with
  | Returned w => k w
  | Threw e w => Threw e w
  end.

(** ** Calls on the collaborators *)

(** [new Pusher.Timer(delay, callback)]: the new timer's reference and the
    world that holds it. *)
Definition new_Timer (delay : Z) (cb : TimerCallback) (w : World) : nat * World :=
  (length (timers w), set_timers (timers w ++ [Timer.Build delay cb Timer.Live]) w).

Definition Timer_ensureAborted (t : nat) (w : World) : World :=
  set_timers (alter Timer.ensureAborted t (timers w)) w.

(** [strategy.connect(retryCount, callback)] *)
Definition Strategy_connect (retryCount : Z) (w : World) : nat * World :=
  (length (runners w),
   set_runners (runners w ++ [Runner.Build retryCount (strategy w) false false]) w).

Definition Runner_abort (r : nat) (w : World) : World :=
  set_runners (alter Runner.abort r (runners w)) w.

Definition Connection_send (c : nat) (data : string) (w : World) : bool * World :=
  match connections w !! c with
  | Some conn =>
      let '(b, conn') := Connection.send data conn in
      (b, set_connections (<[c := conn']> (connections w)) w)
  | None => (false, w)
  end.

Definition Connection_send_event (c : nat) (name data : string) (channel : option string)
    (w : World) : bool * World :=
  match connections w !! c with
  | Some conn =>
      let '(b, conn') := Connection.send_event name data channel conn in
      (b, set_connections (<[c := conn']> (connections w)) w)
  | None => (false, w)
  end.

Definition Connection_close (c : nat) (w : World) : World :=
  set_connections (alter Connection.close c (connections w)) w.

Definition Connection_bind (c : nat) (event : string) (w : World) : World :=
  set_connections (alter (Connection.bind event) c (connections w)) w.

Definition Connection_unbind (c : nat) (event : string) (w : World) : World :=
  set_connections (alter (Connection.unbind event) c (connections w)) w.

(** Modelled from the spec: [Pusher.Network] is not among the sources.  Its
    [isOnline()] answers the last reachability event it has reported; before
    any event the answer is the one the world starts with, possibly unknown. *)
Definition Network_report (online : bool) (w : World) : World :=
  set_isOnline (Some online) w.

(** ** EventsDispatcher *)

(** Modelled from the spec: [Pusher.EventsDispatcher.emit] is not among the
    sources; the event is recorded with the state and connection its
    subscribers observe. *)
Definition emit (name : string) (data : Payload) (w : World) : World :=
  set_emitted
    (emitted w ++ [{| ev_name := name; ev_data := data;
                      ev_state := state w; ev_connection := connection w |}]) w.

(** ** ConnectionManager.prototype *)

Definition updateState (newState : string) (data : Payload) (w : World) : World :=
  let previousState := state w in
  let w := set_state newState w in
  if bool_decide (previousState ≠ newState) then
    let w := emit "state_change" (StateChange previousState newState) w in
    emit newState data w
  else w.

Definition shouldRetry (w : World) : bool :=
  bool_decide (state w = "connecting") || bool_decide (state w = "connected").

Definition updateStrategy (w : World) : World :=
  set_strategy (getStrategy (options w) (key w) (encrypted w)) w.

Definition clearRetryTimer (w : World) : World :=
  match retryTimer w with
  | Some t => Timer_ensureAborted t w
  | None => w
  end.

Definition setUnavailableTimer (w : World) : World :=
  let '(t, w) := new_Timer (unavailableTimeout (options w)) UnavailableCallback w in
  set_unavailableTimer (Some t) w.

Definition clearUnavailableTimer (w : World) : World :=
  match unavailableTimer w with
  | Some t => Timer_ensureAborted t w
  | None => w
  end.

Definition stopActivityCheck (w : World) : World :=
  match activityTimer w with
  | Some t => Timer_ensureAborted t w
  | None => w
  end.

Definition send (data : string) (w : World) : bool * World :=
  match connection w with
  | Some c => Connection_send c data w
  | None => (false, w)
  end.

Definition send_event (name data : string) (channel : option string) (w : World)
    : bool * World :=
  match connection w with
  | Some c => Connection_send_event c name data channel w
  | None => (false, w)
  end.

(** [delay || 0] *)
Definition or_zero (delay : Z) : Z := if bool_decide (delay = 0) then 0 else delay.

Definition retryIn (delay : Z) (w : World) : World :=
  let '(t, w) := new_Timer (or_zero delay) RetryCallback w in
  set_retryTimer (Some t) w.

(** [this.connection.supportsPing()] raises when no connection object is
    there to answer. *)
Definition resetActivityCheck (w : World) : Outcome :=
  let w := stopActivityCheck w in
  match connection w with
  | None => Threw TypeError w
  | Some c =>
      match connections w !! c with
      | None => Threw TypeError w
      | Some conn =>
          if negb (Connection.supportsPing conn) then
            let '(t, w) := new_Timer (activityTimeout (options w)) ActivityCallback w in
            Returned (set_activityTimer (Some t) w)
          else Returned w
      end
  end.

(** The keys of [connectionCallbacks], in the order of the object literal. *)
Definition connectionCallbackNames : list string :=
  ["message"; "ping"; "ping_request"; "error"; "closed"].

Definition abandonConnection (w : World) : World :=
  match connection w with
  | None => w
  | Some c =>
      let w := foldl (λ w event, Connection_unbind c event w) w connectionCallbackNames in
      set_connection None w
  end.

(** [setConnection(connection)]: the handshake's connection object enters the
    store; a handshake without one leaves [this.connection] undefined and
    the first [bind] raises. *)
Definition setConnection (conn : option Connection.t) (w : World) : Outcome :=
  match conn with
  | None => Threw TypeError (set_connection None w)
  | Some conn =>
      let c := length (connections w) in
      let w := set_connections (connections w ++ [conn]) w in
      let w := set_connection (Some c) w in
      let w := foldl (λ w event, Connection_bind c event w) w connectionCallbackNames in
      resetActivityCheck w
  end.

Definition disconnect (w : World) : World :=
  let w := match runner w with
           | Some r => Runner_abort r w
           | None => w
           end in
  let w := clearRetryTimer w in
  let w := clearUnavailableTimer w in
  let w := stopActivityCheck w in
  let w := updateState "disconnected" Undefined w in
  match connection w with
  | Some c =>
      let w := Connection_close c w in
      abandonConnection w
  | None => w
  end.

Definition connect (w : World) : World :=
  match connection w with
  | Some _ => w
  | None =>
      if bool_decide (state w = "connecting") then w
      else if negb (Strategy.isSupported (strategy w)) then
        updateState "failed" Undefined w
      else if bool_decide (isOnline w = Some false) then
        updateState "unavailable" Undefined w
      else
        let w := updateState "connecting" Undefined w in
        let w := set_timelineSender (Some (encrypted w)) w in
        let '(r, w) := Strategy_connect 0 w in
        let w := set_runner (Some r) w in
        setUnavailableTimer w
  end.

(** *** Callback tables *)

Definition Callback := Handshake → World → Outcome.

(** A table of callbacks is an object literal: its own properties, in order. *)
Definition Table := list (string * Callback).

Fixpoint own_property (name : string) (o : Table) : option Callback :=
  match o with
  | [] => None
  | (k, v) :: o' => if bool_decide (k = name) then Some v else own_property name o'
  end.

Fixpoint set_property (name : string) (v : Callback) (o : Table) : Table :=
  match o with
  | [] => [(name, v)]
  | (k, v') :: o' =>
      if bool_decide (k = name) then (k, v) :: o' else (k, v') :: set_property name v o'
  end.

(** Modelled from the spec: [Pusher.Util.extend(target, ...sources)] is not
    among the sources; it copies the sources' properties onto the target. *)
Definition Util_extend (target : Table) (sources : list Table) : Table :=
  foldl (λ t src, foldl (λ t kv, set_property kv.1 kv.2 t) t src) target sources.

(** The functions of the literal returned by [buildErrorCallbacks]. *)
Definition buildErrorCallbacks_ssl_only : Callback := λ _ w,
  let w := set_encrypted true w in
  let w := updateStrategy w in
  Returned (retryIn 0 w).

Definition buildErrorCallbacks_refused : Callback := λ _ w,
  Returned (disconnect w).

Definition buildErrorCallbacks_backoff : Callback := λ _ w,
  Returned (retryIn 1000 w).

Definition buildErrorCallbacks_retry : Callback := λ _ w,
  Returned (retryIn 0 w).

Definition buildErrorCallbacks : Table :=
  [ ("ssl_only", buildErrorCallbacks_ssl_only);
    ("refused", buildErrorCallbacks_refused);
    ("backoff", buildErrorCallbacks_backoff);
    ("retry", buildErrorCallbacks_retry) ].

(** The function under [connected] in [buildHandshakeCallbacks]. *)
Definition buildHandshakeCallbacks_connected : Callback := λ handshake w,
  let w := clearUnavailableTimer w in
  and_then (setConnection (hs_connection handshake) w) (λ w,
    let w := set_socket_id
               (match connection w with
                | Some c => Connection.id <$> connections w !! c
                | None => None
                end) w in
    Returned (updateState "connected" Undefined w)).

Definition buildHandshakeCallbacks (errorCallbacks : Table) : Table :=
  Util_extend [] [ errorCallbacks;
                   [ ("connected", buildHandshakeCallbacks_connected) ] ].

Definition errorCallbacks : Table := buildErrorCallbacks.
Definition handshakeCallbacks : Table := buildHandshakeCallbacks errorCallbacks.

(** The tables are plain objects, so a name that is not an own property is
    looked up on [Object.prototype].  Its methods neither read nor write the
    manager; called with the handshake as argument they return, except the
    accessor definers, which raise on a missing function argument, and
    [__proto__], which is not a function. *)
Definition Object_prototype : list (string * bool) :=
  [ ("constructor", true); ("toString", true); ("toLocaleString", true);
    ("valueOf", true); ("hasOwnProperty", true); ("isPrototypeOf", true);
    ("propertyIsEnumerable", true); ("__lookupGetter__", true);
    ("__lookupSetter__", true); ("__defineGetter__", false);
    ("__defineSetter__", false); ("__proto__", false) ].

Definition inherited_property (name : string) : option bool :=
  match list_find (λ p : string * bool, p.1 = name) Object_prototype with
  | Some (_, (_, callable)) => Some callable
  | None => None
  end.

(** [table[name](handshake)] *)
Definition call_property (table : Table) (name : string) (handshake : Handshake)
    (w : World) : Outcome :=
  match own_property name table with
  | Some f => f handshake w
  | None =>
      match inherited_property name with
      | Some true => Returned w
      | Some false | None => Threw TypeError w
      end
  end.

(** The [callback] closure of [connect].  [if (error)] tests the error for
    truth: the empty string is the one string that is not, and then the
    callback takes the other branch, where there is no handshake to read the
    action of. *)
Definition connect_callback (result : StrategyResult) (w : World) : Outcome :=
  match result with
  | Failure error =>
      if bool_decide (error ≠ "") then
        let '(r, w) := Strategy_connect 0 w in
        Returned (set_runner (Some r) w)
      else
        match runner w with
        | None => Threw TypeError w
        | Some r => Threw TypeError (Runner_abort r w)
        end
  | Success handshake =>
      match runner w with
      | None => Threw TypeError w
      | Some r =>
          let w := Runner_abort r w in
          call_property handshakeCallbacks (action handshake) handshake w
      end
  end.

(** [buildConnectionCallbacks]: the callback bound on a connection for the
    event [name], applied to the event's argument. *)
Definition connectionCallbacks (name : string) (arg : string) (w : World) : Outcome :=
  if bool_decide (name = "message") then
    and_then (resetActivityCheck w) (λ w, Returned (emit "message" (Message arg) w))
  else if bool_decide (name = "ping") then
    Returned (send_event "pusher:pong" "{}" None w).2
  else if bool_decide (name = "ping_request") then
    Returned (send_event "pusher:ping" "{}" None w).2
  else if bool_decide (name = "error") then
    Returned (emit "error" (WebSocketError arg) w)
  else if bool_decide (name = "closed") then
    let w := abandonConnection w in
    if shouldRetry w then Returned (retryIn 1000 w) else Returned w
  else Returned w.

(** The closures handed to timers. *)
Definition timer_callback (cb : TimerCallback) (w : World) : Outcome :=
  match cb with
  | RetryCallback => Returned (connect (disconnect w))
  | UnavailableCallback => Returned (updateState "unavailable" Undefined w)
  | ActivityCallback =>
      let w := (send_event "pusher:ping" "{}" None w).2 in
      let '(t, w) := new_Timer (pongTimeout (options w)) PongCallback w in
      Returned (set_activityTimer (Some t) w)
  | PongCallback =>
      match connection w with
      | Some c => Returned (Connection_close c w)
      | None => Threw TypeError w
      end
  end.

(** The handlers bound on [Pusher.Network] by the constructor. *)
Definition network_online (w : World) : World :=
  if bool_decide (state w = "unavailable") then connect w else w.

Definition network_offline (w : World) : World :=
  if shouldRetry w then updateState "unavailable" Undefined (disconnect w) else w.

(** [new ConnectionManager(key, options)], in an environment whose network
    monitor answers [online]. *)
Definition ConnectionManager (k : string) (o : Options) (online : option bool) : World :=
  updateStrategy
    {| key := k; options := o; state := "initialized"; connection := None;
       encrypted := opt_encrypted o; strategy := getStrategy o k (opt_encrypted o);
       runner := None; retryTimer := None; unavailableTimer := None;
       activityTimer := None; socket_id := None; timelineSender := None;
       timers := []; runners := []; connections := [];
       isOnline := online; emitted := [] |}.

(** ** What the environment can do to the manager *)

Inductive Input :=
  | Call_connect
  | Call_disconnect
  | Call_send (data : string)
  | Call_send_event (name data : string) (channel : option string)
  | Network_online
  | Network_offline
  | Timer_fires (t : nat)
  | Strategy_calls_back (r : nat) (result : StrategyResult)
  | Connection_emits (c : nat) (name : string) (arg : string).

(** One turn of the event loop.  A timer fires only while live, an attempt
    calls back only while pending, a connection calls only the callbacks bound
    on it. *)
Definition step (i : Input) (w : World) : Outcome :=
  match i with
  | Call_connect => Returned (connect w)
  | Call_disconnect => Returned (disconnect w)
  | Call_send data => Returned (send data w).2
  | Call_send_event name data channel => Returned (send_event name data channel w).2
  | Network_online => Returned (network_online (Network_report true w))
  | Network_offline => Returned (network_offline (Network_report false w))
  | Timer_fires t =>
      match timers w !! t with
      | Some x =>
          if Timer.is_live x then
            timer_callback (Timer.callback x)
              (set_timers (<[t := Timer.fired x]> (timers w)) w)
          else Returned w
      | None => Returned w
      end
  | Strategy_calls_back r result =>
      match runners w !! r with
      | Some x =>
          if Runner.pending x then
            connect_callback result
              (set_runners (<[r := Runner.deliver x]> (runners w)) w)
          else Returned w
      | None => Returned w
      end
  | Connection_emits c name arg =>
      match connections w !! c with
      | Some conn =>
          if bool_decide (name ∈ Connection.bound conn) then connectionCallbacks name arg w
          else Returned w
      | None => Returned w
      end
  end.

(** The outcomes of a sequence of turns, and the world it leaves: an
    exception ends the turn that raised it, not the event loop. *)
Fixpoint run (inputs : list Input) (w : World) : World :=
  match inputs with
  | [] => w
  | i :: inputs => run inputs (world_of (step i w))
  end.

(** ** Observations used in the statements *)

(** The timers of the store that are still to fire and carry the callback
    [cb], by reference. *)
Definition outstanding (cb : TimerCallback) (w : World) : list nat :=
  omap (λ p : nat * Timer.t,
          if Timer.is_live p.2 && bool_decide (Timer.callback p.2 = cb)
          then Some p.1 else None)
       (imap pair (timers w)).

(** [ensureAborted] on an optional reference, as [clearRetryTimer],
    [clearUnavailableTimer] and [stopActivityCheck] do on the store. *)
Definition abort_opt (o : option nat) (l : list Timer.t) : list Timer.t :=
  match o with
  | Some t => alter Timer.ensureAborted t l
  | None => l
  end.

Definition abort_runner_opt (o : option nat) (l : list Runner.t) : list Runner.t :=
  match o with
  | Some r => alter Runner.abort r l
  | None => l
  end.

(** An unavailable timer in the store that is still to fire. *)
Definition live_unavailable (l : list Timer.t) (t : nat) : Prop :=
  ∃ x, l !! t = Some x ∧ Timer.callback x = UnavailableCallback
       ∧ Timer.state x = Timer.Live.

(** An activity or pong timer in the store that is still to fire. *)
Definition live_heartbeat (l : list Timer.t) (t : nat) : Prop :=
  ∃ x, l !! t = Some x
       ∧ (Timer.callback x = ActivityCallback ∨ Timer.callback x = PongCallback)
       ∧ Timer.state x = Timer.Live.

(** The heartbeat timer still to fire, if any, is the one the manager
    refers to. *)
Definition heartbeat_tracked (w : World) : Prop :=
  ∀ t, live_heartbeat (timers w) t → activityTimer w = Some t.

(** No unavailable timer is still to fire. *)
Definition quiet (w : World) : Prop := ∀ t, ¬ live_unavailable (timers w) t.

(** What a subscriber may see when an event reaches it: a connection is held
    only in state [connected], or in state [disconnected] during the events
    [disconnect()] emits before it releases the connection. *)
Definition observed_ok (e : Emitted) : Prop :=
  is_Some (ev_connection e) → ev_state e = "connected" ∨ ev_state e = "disconnected".

(** The invariant of the event loop. *)
Record consistent (w : World) : Prop := {
  held_connected : is_Some (connection w) → state w = "connected";
  unavailable_tracked :
    ∀ t, live_unavailable (timers w) t →
         unavailableTimer w = Some t ∧ state w = "connecting";
  observed : Forall observed_ok (emitted w)
}.

(** The two events of a transition from [previous] to [current], as seen by a
    manager holding [c]. *)
Definition transition (previous current : string) (data : Payload) (c : option nat)
    : list Emitted :=
  [ {| ev_name := "state_change"; ev_data := StateChange previous current;
       ev_state := current; ev_connection := c |};
    {| ev_name := current; ev_data := data; ev_state := current; ev_connection := c |} ].

(** Where [disconnect(); connect()] ends, by the strategy connected on and the
    network monitor's answer, and the attempts it starts. *)
Definition reconnect_state (s : Strategy.t) (online : option bool) : string :=
  if negb (Strategy.isSupported s) then "failed"
  else if bool_decide (online = Some false) then "unavailable"
  else "connecting".

Definition reconnect_attempts (s : Strategy.t) (online : option bool) : list Runner.t :=
  if negb (Strategy.isSupported s) then []
  else if bool_decide (online = Some false) then []
  else [Runner.Build 0 s false false].

(** The names under which [handshakeCallbacks] has a callback of its own. *)
Definition handshake_actions : list string := map fst handshakeCallbacks.

(** ** A sample environment *)

Definition sample_options : Options :=
  {| opt_encrypted := false;
     unavailableTimeout := 10000;
     activityTimeout := 120000;
     pongTimeout := 30000;
     getStrategy := λ _ enc, Strategy.Build enc true |}.


Definition sample_connection : Connection.t :=
  Connection.Build "42" false true [] [] 0.

Definition fresh : World := ConnectionManager "app-key" sample_options None.

Definition handshake_of (a : string) : Handshake :=
  {| action := a; hs_connection := None |}.

Definition handshake_connected : Handshake :=
  {| action := "connected"; hs_connection := Some sample_connection |}.

(** connect(), then the strategy succeeds with a connection. *)
Definition established : World :=
  run [Call_connect; Strategy_calls_back 0%nat (Success handshake_connected)] fresh.

(** The transport of the established connection closes by itself. *)
Definition closed_by_transport : World :=
  run [Connection_emits 0%nat "closed" ""] established.

(** The caller reconnects within the backoff second, and the new handshake
    asks for a backoff too. *)
Definition reconnected_early : World :=
  run [Call_connect; Strategy_calls_back 1%nat (Success (handshake_of "backoff"))]
      closed_by_transport.

(** The activity timer of the established connection fires, then the
    transport closes while the pong is awaited. *)
Definition closed_awaiting_pong : World :=
  run [Timer_fires 1%nat; Connection_emits 0%nat "closed" ""] established.

(** After [reconnected_early] with a handshake [retry] in place of [backoff]:
    the second retry timer fires, and the handshake of the attempt it starts
    answers [refused]. *)
Definition refused_after_reconnect : World :=
  run [Call_connect;
       Strategy_calls_back 1%nat (Success (handshake_of "retry"));
       Timer_fires 4%nat;
       Strategy_calls_back 2%nat (Success (handshake_of "refused"))]
      closed_by_transport.


(** ** The manager's primitive actions *)

(** The first half of [setConnection]: the handshake's connection enters the
    store, becomes the manager's connection and gets the callbacks of
    [connectionCallbacks] bound. *)
Definition adopt (conn : Connection.t) (w : World) : World :=
  let c := length (connections w) in
  let w := set_connections (connections w ++ [conn]) w in
  let w := set_connection (Some c) w in
  foldl (λ w event, Connection_bind c event w) w connectionCallbackNames.

(** Everything the methods of the manager are made of: each method is a
    sequence of these actions. *)
Inductive effect : World → World → Prop :=
  | effect_updateState s w : effect w (updateState s Undefined w)
  | effect_emit n d w :
      (∀ p c, d ≠ StateChange p c) → effect w (emit n d w)
  | effect_arm d cb w :
      effect w (set_timers (timers w ++ [Timer.Build d cb Timer.Live]) w)
  | effect_ensureAborted t w :
      effect w (set_timers (alter Timer.ensureAborted t (timers w)) w)
  | effect_fire t x w :
      effect w (set_timers (<[t := Timer.fired x]> (timers w)) w)
  | effect_start rc w :
      effect w (set_runners (runners w ++ [Runner.Build rc (strategy w) false false]) w)
  | effect_abort r w :
      effect w (set_runners (alter Runner.abort r (runners w)) w)
  | effect_deliver r x w :
      effect w (set_runners (<[r := Runner.deliver x]> (runners w)) w)
  | effect_send c d w : effect w (Connection_send c d w).2
  | effect_send_event c n d ch w : effect w (Connection_send_event c n d ch w).2
  | effect_close c w : effect w (Connection_close c w)
  | effect_adopt conn w : effect w (adopt conn w)
  | effect_abandon w : effect w (abandonConnection w)
  | effect_no_connection w : effect w (set_connection None w)
  | effect_ssl_only w : effect w (updateStrategy (set_encrypted true w))
  | effect_runner o w : effect w (set_runner o w)
  | effect_retryTimer o w : effect w (set_retryTimer o w)
  | effect_unavailableTimer o w : effect w (set_unavailableTimer o w)
  | effect_activityTimer o w : effect w (set_activityTimer o w)
  | effect_socket_id o w : effect w (set_socket_id o w)
  | effect_timelineSender o w : effect w (set_timelineSender o w)
  | effect_report b w : effect w (Network_report b w).

(** Following the manager's state through its emitted events.  A
    "state_change" from [p] to [c] is accepted in state [p] only, with
    [c] different from [p], and must be followed at once by the event named
    [c]; every event shows its subscribers the state reached so far. *)
Definition follow (acc : option (string * bool)) (e : Emitted) : option (string * bool) :=
  match acc with
  | None => None
  | Some (s, due) =>
      if due then
        if bool_decide (ev_name e = s ∧ ev_state e = s) then Some (s, false) else None
      else
        match ev_data e with
        | StateChange p c =>
            if bool_decide (ev_name e = "state_change" ∧ p = s ∧ c ≠ s ∧ ev_state e = c)
            then Some (c, true) else None
        | _ => if bool_decide (ev_state e = s) then Some (s, false) else None
        end
  end.

Definition replay (s : string) (log : list Emitted) : option (string * bool) :=
  foldl follow (Some (s, false)) log.

(** The connection the manager holds is in the store, with the callbacks of
    [connectionCallbacks] bound on it. *)
Definition held_is_bound (w : World) : Prop :=
  ∀ c, connection w = Some c →
    ∃ conn, connections w !! c = Some conn
            ∧ ∀ event, event ∈ connectionCallbackNames → event ∈ Connection.bound conn.

(** The strategy reports an error to the callback of the manager's current
    attempt. *)
Definition strategy_fails (error : string) (w : World) : World :=
  match runner w with
  | Some r => world_of (step (Strategy_calls_back r (Failure error)) w)
  | None => w
  end.

(** ** Tactics *)

Ltac open_world w :=
  destruct w as [k o s c e st r rt ut act sid tls tms rns cns onl em]; simpl in *.

(** Projections of updated worlds, without unfolding what is stored. *)
Ltac fields :=
  cbn [key options state connection encrypted strategy runner retryTimer
       unavailableTimer activityTimer socket_id timelineSender timers runners
       connections isOnline emitted
       set_state set_connection set_encrypted set_strategy set_runner set_retryTimer
       set_unavailableTimer set_activityTimer set_socket_id set_timelineSender
       set_timers set_runners set_connections set_isOnline set_emitted
       Timer_ensureAborted Runner_abort Connection_close Connection_bind
       Connection_unbind Network_report emit new_Timer Strategy_connect world_of and_then
       abort_opt abort_runner_opt fst snd] in *.

(** * Properties *)

(** ** Record bookkeeping *)

Lemma set_state_same w : set_state (state w) w = w.
Proof. by destruct w. Qed.

Lemma app_ne_self {A} (l k : list A) : k ≠ [] → l ++ k ≠ l.
Proof.
  intros Hk Heq. apply Hk, length_zero_iff_nil.
  apply (f_equal length) in Heq. rewrite length_app in Heq. lia.
Qed.

(** ** updateState *)

(** C3. [updateState(newState, data)] emits events exactly when [newState]
    differs from the current state; it then emits two events, in order:
    "state_change" carrying the previous and the new state, then an event
    named [newState] carrying [data].  When [newState] is the current state
    nothing is emitted and nothing changes. *)
Theorem updateState_emits (newState : string) (data : Payload) (w : World) :
  (state w ≠ newState →
     updateState newState data w =
       set_emitted (emitted w ++ transition (state w) newState data (connection w))
                   (set_state newState w))
  ∧ (state w = newState → updateState newState data w = w)
  ∧ (emitted (updateState newState data w) ≠ emitted w ↔ state w ≠ newState).
Proof.
  assert (Hne : state w ≠ newState →
     updateState newState data w =
       set_emitted (emitted w ++ transition (state w) newState data (connection w))
                   (set_state newState w)).
  { intros H. unfold updateState, emit, transition.
    rewrite bool_decide_true by done. destruct w; simpl.
    by rewrite <- app_assoc. }
  assert (Heq : state w = newState → updateState newState data w = w).
  { intros H. unfold updateState. rewrite bool_decide_false by auto.
    rewrite <- H. apply set_state_same. }
  split; [done|]. split; [done|]. split.
  - intros Hem Hs. apply Hem. by rewrite Heq.
  - intros Hs. rewrite Hne by done. simpl. by apply app_ne_self.
Qed.

Lemma updateState_emits_witness :
  state fresh ≠ "connecting"
  ∧ updateState "connecting" Undefined fresh =
      set_emitted (emitted fresh ++ transition "initialized" "connecting" Undefined None)
                  (set_state "connecting" fresh).
Proof.
  split; [done|].
  apply (proj1 (updateState_emits "connecting" Undefined fresh)). done.
Defined.

(** ** connect *)

(** C2. [connect()] does nothing when a connection is held or the state is
    already [connecting]: the world it returns is the one it was called in,
    so no state change, no attempt, no timer and no event. *)
Theorem connect_noop (w : World) :
  is_Some (connection w) ∨ state w = "connecting" → connect w = w.
Proof.
  intros [[c Hc]|Hs]; unfold connect.
  - by rewrite Hc.
  - destruct (connection w); [done|]. by rewrite bool_decide_true.
Qed.

Lemma connect_noop_witness :
  (is_Some (connection established) ∨ state established = "connecting")
  ∧ connect established = established.
Proof.
  split; [left; by eexists|].
  apply (connect_noop established). left. by eexists.
Defined.

(** C6. [connect()] with no connection held and a state other than
    [connecting]: an unsupported strategy gives [failed]; otherwise a network
    known to be offline gives [unavailable]; in both cases no attempt and no
    timer is started.  Otherwise the state becomes [connecting], one attempt
    is started on the strategy with retry count 0 and becomes the runner, and
    one timer for [unavailableTimeout] is armed as the unavailable timer. *)
Theorem connect_cases (w : World) :
  connection w = None → state w ≠ "connecting" →
  (Strategy.isSupported (strategy w) = false →
     state (connect w) = "failed"
     ∧ runners (connect w) = runners w ∧ timers (connect w) = timers w
     ∧ runner (connect w) = runner w
     ∧ unavailableTimer (connect w) = unavailableTimer w)
  ∧ (Strategy.isSupported (strategy w) = true → isOnline w = Some false →
     state (connect w) = "unavailable"
     ∧ runners (connect w) = runners w ∧ timers (connect w) = timers w
     ∧ runner (connect w) = runner w
     ∧ unavailableTimer (connect w) = unavailableTimer w)
  ∧ (Strategy.isSupported (strategy w) = true → isOnline w ≠ Some false →
     state (connect w) = "connecting"
     ∧ runners (connect w) = runners w ++ [Runner.Build 0 (strategy w) false false]
     ∧ runner (connect w) = Some (length (runners w))
     ∧ timers (connect w) =
         timers w ++ [Timer.Build (unavailableTimeout (options w))
                                  UnavailableCallback Timer.Live]
     ∧ unavailableTimer (connect w) = Some (length (timers w))).
Proof.
  intros Hc Hs. unfold connect. rewrite Hc, (bool_decide_false _ Hs).
  split; [|split].
  - intros ->. simpl. unfold updateState. by case_bool_decide.
  - intros -> Hoff. simpl. rewrite (bool_decide_true _ Hoff).
    unfold updateState. by case_bool_decide.
  - intros -> Hon. simpl. rewrite (bool_decide_false _ Hon).
    unfold updateState. by case_bool_decide.
Qed.

Lemma connect_cases_witness :
  state (connect fresh) = "connecting"
  ∧ runner (connect fresh) = Some 0%nat
  ∧ unavailableTimer (connect fresh) = Some 0%nat.
Proof.
  assert (H0 : connection fresh = None) by done.
  assert (H1 : state fresh ≠ "connecting") by done.
  assert (H2 : Strategy.isSupported (strategy fresh) = true) by done.
  assert (H3 : isOnline fresh ≠ Some false) by done.
  destruct (proj2 (proj2 (connect_cases fresh H0 H1)) H2 H3) as (Hs & _ & Hr & _ & Hu).
  done.
Defined.

(** ** send and send_event *)

(** C10. Without a connection [send] and [send_event] answer [false], do not
    raise and leave the world as it is; with a connection they are the
    connection's own [send] and [send_event]: same answer, and the connection
    is the one that received the data. *)
Theorem send_delegates (data name : string) (channel : option string) (w : World) :
  (connection w = None →
     send data w = (false, w)
     ∧ send_event name data channel w = (false, w)
     ∧ step (Call_send data) w = Returned w
     ∧ step (Call_send_event name data channel) w = Returned w)
  ∧ (∀ c conn, connection w = Some c → connections w !! c = Some conn →
     (send data w).1 = (Connection.send data conn).1
     ∧ connections (send data w).2 !! c = Some (Connection.send data conn).2
     ∧ (send_event name data channel w).1
         = (Connection.send_event name data channel conn).1
     ∧ connections (send_event name data channel w).2 !! c
         = Some (Connection.send_event name data channel conn).2).
Proof.
  split.
  - intros Hc. unfold step, send, send_event. by rewrite Hc.
  - intros c conn Hc Hconn.
    assert (Hlt : (c < length (connections w))%nat) by by eapply lookup_lt_Some.
    unfold send, send_event, Connection_send, Connection_send_event.
    rewrite Hc, Hconn. simpl.
    by rewrite !list_lookup_insert_eq.
Qed.

Lemma send_delegates_witness :
  connection fresh = None ∧ send "hello" fresh = (false, fresh).
Proof.
  split; [done|].
  apply (proj1 (send_delegates "hello" "event" None fresh)). done.
Defined.

(** ** Timers and attempts in the store *)

Lemma ensureAborted_not_live x : Timer.state (Timer.ensureAborted x) ≠ Timer.Live.
Proof. unfold Timer.ensureAborted. by destruct (Timer.state x) eqn:E; simpl; rewrite ?E. Qed.

(** A timer that is live after an abort was live before, and is not the
    aborted one. *)
Lemma abort_opt_live o l i x :
  abort_opt o l !! i = Some x → Timer.state x = Timer.Live →
  l !! i = Some x ∧ o ≠ Some i.
Proof.
  destruct o as [t|]; simpl; [|by intros; split].
  intros Hx Hlive. destruct (decide (t = i)) as [->|Hne].
  - rewrite list_lookup_alter_eq in Hx.
    destruct (l !! i) as [y|]; simplify_eq/=.
    by destruct (ensureAborted_not_live y).
  - rewrite list_lookup_alter_ne in Hx by done. split; congruence.
Qed.

Lemma abort_opt_length o l : length (abort_opt o l) = length l.
Proof. destruct o; simpl; by rewrite ?length_alter. Qed.

Lemma abort_runner_opt_length o l : length (abort_runner_opt o l) = length l.
Proof. destruct o; cbn [abort_runner_opt]; by rewrite ?length_alter. Qed.

Lemma abort_runner_twice o l : abort_runner_opt o (abort_runner_opt o l) = abort_runner_opt o l.
Proof.
  destruct o as [r|]; simpl; [|done].
  rewrite list_alter_alter_eq. by apply list_alter_ext.
Qed.

(** ** disconnect *)

(** What [disconnect()] and its parts leave behind, field by field. *)
Lemma abandonConnection_fields (w : World) :
  state (abandonConnection w) = state w
  ∧ connection (abandonConnection w) = None
  ∧ timers (abandonConnection w) = timers w
  ∧ runners (abandonConnection w) = runners w
  ∧ runner (abandonConnection w) = runner w
  ∧ retryTimer (abandonConnection w) = retryTimer w
  ∧ unavailableTimer (abandonConnection w) = unavailableTimer w
  ∧ activityTimer (abandonConnection w) = activityTimer w
  ∧ strategy (abandonConnection w) = strategy w
  ∧ isOnline (abandonConnection w) = isOnline w
  ∧ options (abandonConnection w) = options w
  ∧ emitted (abandonConnection w) = emitted w.
Proof.
  unfold abandonConnection, connectionCallbackNames.
  destruct (connection w) eqn:Hc; cbn [foldl]; fields; done.
Qed.

Lemma updateState_fields (s : string) (d : Payload) (w : World) :
  state (updateState s d w) = s
  ∧ connection (updateState s d w) = connection w
  ∧ timers (updateState s d w) = timers w
  ∧ runners (updateState s d w) = runners w
  ∧ runner (updateState s d w) = runner w
  ∧ retryTimer (updateState s d w) = retryTimer w
  ∧ unavailableTimer (updateState s d w) = unavailableTimer w
  ∧ activityTimer (updateState s d w) = activityTimer w
  ∧ strategy (updateState s d w) = strategy w
  ∧ isOnline (updateState s d w) = isOnline w
  ∧ options (updateState s d w) = options w
  ∧ connections (updateState s d w) = connections w
  ∧ emitted (updateState s d w)
      = emitted w ++ (if bool_decide (state w ≠ s)
                      then transition (state w) s d (connection w) else []).
Proof.
  unfold updateState, transition. case_bool_decide; fields;
    rewrite <- ?app_assoc, ?app_nil_r; done.
Qed.

Lemma disconnect_fields (w : World) :
  state (disconnect w) = "disconnected"
  ∧ connection (disconnect w) = None
  ∧ timers (disconnect w)
      = abort_opt (activityTimer w) (abort_opt (unavailableTimer w)
          (abort_opt (retryTimer w) (timers w)))
  ∧ runners (disconnect w) = abort_runner_opt (runner w) (runners w)
  ∧ runner (disconnect w) = runner w
  ∧ retryTimer (disconnect w) = retryTimer w
  ∧ unavailableTimer (disconnect w) = unavailableTimer w
  ∧ activityTimer (disconnect w) = activityTimer w
  ∧ strategy (disconnect w) = strategy w
  ∧ isOnline (disconnect w) = isOnline w
  ∧ options (disconnect w) = options w
  ∧ emitted (disconnect w)
      = emitted w ++ (if bool_decide (state w ≠ "disconnected")
                      then transition (state w) "disconnected" Undefined (connection w)
                      else []).
Proof.
  unfold disconnect.
  set (w1 := match runner w with Some r => Runner_abort r w | None => w end).
  set (w2 := clearRetryTimer w1).
  set (w3 := clearUnavailableTimer w2).
  set (w4 := stopActivityCheck w3).
  set (w5 := updateState "disconnected" Undefined w4).
  assert (H4 : state w4 = state w ∧ connection w4 = connection w
    ∧ timers w4 = abort_opt (activityTimer w) (abort_opt (unavailableTimer w)
          (abort_opt (retryTimer w) (timers w)))
    ∧ runners w4 = abort_runner_opt (runner w) (runners w)
    ∧ runner w4 = runner w ∧ retryTimer w4 = retryTimer w
    ∧ unavailableTimer w4 = unavailableTimer w ∧ activityTimer w4 = activityTimer w
    ∧ strategy w4 = strategy w ∧ isOnline w4 = isOnline w ∧ options w4 = options w
    ∧ emitted w4 = emitted w).
  { subst w4 w3 w2 w1.
    unfold stopActivityCheck, clearUnavailableTimer, clearRetryTimer.
    destruct (runner w) eqn:?; fields;
      destruct (retryTimer w) eqn:?; fields;
      destruct (unavailableTimer w) eqn:?; fields;
      destruct (activityTimer w) eqn:?; fields; done. }
  destruct H4 as (S4 & C4 & T4 & R4 & r4 & rt4 & ut4 & at4 & st4 & on4 & op4 & em4).
  destruct (updateState_fields "disconnected" Undefined w4)
    as (S5 & C5 & T5 & R5 & r5 & rt5 & ut5 & at5 & st5 & on5 & op5 & cn5 & em5).
  fold w5 in S5, C5, T5, R5, r5, rt5, ut5, at5, st5, on5, op5, cn5, em5.
  destruct (connection w5) as [c|] eqn:Hc5.
  - destruct (abandonConnection_fields (Connection_close c w5))
      as (S6 & C6 & T6 & R6 & r6 & rt6 & ut6 & at6 & st6 & on6 & op6 & em6).
    rewrite S6, C6, T6, R6, r6, rt6, ut6, at6, st6, on6, op6, em6. fields.
    rewrite S5, T5, R5, r5, rt5, ut5, at5, st5, on5, op5, em5.
    rewrite S4, C4, T4, R4, r4, rt4, ut4, at4, st4, on4, op4, em4. done.
  - rewrite S5, Hc5, T5, R5, r5, rt5, ut5, at5, st5, on5, op5, em5.
    rewrite S4, C4, T4, R4, r4, rt4, ut4, at4, st4, on4, op4, em4. done.
Qed.

Lemma disconnect_live (w : World) t x :
  timers (disconnect w) !! t = Some x → Timer.state x = Timer.Live →
  timers w !! t = Some x
  ∧ retryTimer w ≠ Some t ∧ unavailableTimer w ≠ Some t ∧ activityTimer w ≠ Some t.
Proof.
  destruct (disconnect_fields w) as (_ & _ & -> & _).
  intros H Hlive.
  apply abort_opt_live in H as [H ?]; [|done].
  apply abort_opt_live in H as [H ?]; [|done].
  apply abort_opt_live in H as [H ?]; done.
Qed.

Lemma connect_runners (w : World) :
  runners (connect w) = runners w
  ∨ runners (connect w) = runners w ++ [Runner.Build 0 (strategy w) false false].
Proof.
  unfold connect, updateState, emit. open_world w.
  destruct c; simpl; [by left|].
  repeat (case_bool_decide || case_match); simpl; auto.
Qed.

(** ** The callback tables *)

Lemma own_property_None name (o : Table) :
  name ∉ map fst o → own_property name o = None.
Proof.
  induction o as [|[k v] o IH]; simpl; [done|].
  intros Hn. apply not_elem_of_cons in Hn as [Hne Hn].
  rewrite bool_decide_false by done. auto.
Qed.

Example handshake_actions_are :
  handshake_actions = ["ssl_only"; "refused"; "backoff"; "retry"; "connected"].
Proof. reflexivity. Qed.

(** C4, at a failing input.  The transport of an established connection
    closes, which arms a retry timer (reference 2); the caller calls
    [connect()] within the backoff second and the handshake answers [retry]:
    [retryIn] arms another retry timer (reference 4) and drops its reference
    to the first.  The new timer fires and the handshake of the attempt it
    starts answers [refused].  The manager disconnects, but the first retry
    timer is still armed; when it fires the manager connects again. *)
Theorem refused_leaves_retry_timer_armed :
  state refused_after_reconnect = "disconnected"
  ∧ retryTimer refused_after_reconnect = Some 4%nat
  ∧ outstanding RetryCallback refused_after_reconnect = [2%nat]
  ∧ timers refused_after_reconnect !! 2%nat
      = Some (Timer.Build 1000 RetryCallback Timer.Live)
  ∧ ∃ w', step (Timer_fires 2%nat) refused_after_reconnect = Returned w'
      ∧ state w' = "connecting"
      ∧ Runner.pending <$> runners w' !! 3%nat = Some true.
Proof.
  split; [vm_compute; reflexivity|].
  split; [vm_compute; reflexivity|].
  split; [vm_compute; reflexivity|].
  split; [vm_compute; reflexivity|].
  exists (world_of (step (Timer_fires 2%nat) refused_after_reconnect)).
  split; [vm_compute; reflexivity|].
  split; vm_compute; reflexivity.
Qed.

(** C5, as the code has it.  A handshake whose action is no property of the
    handshake table, neither its own nor inherited, makes the strategy's
    callback raise a [TypeError] once the manager's attempt is aborted; state,
    connection, timers and emitted events are as before. *)
Theorem unknown_action_raises (h : Handshake) (r r0 : nat) (x : Runner.t) (w : World) :
  runner w = Some r →
  runners w !! r0 = Some x → Runner.pending x = true →
  action h ∉ handshake_actions →
  inherited_property (action h) = None →
  ∃ w', step (Strategy_calls_back r0 (Success h)) w = Threw TypeError w'
    ∧ state w' = state w ∧ connection w' = connection w
    ∧ timers w' = timers w ∧ emitted w' = emitted w
    ∧ runners w' = alter Runner.abort r (<[r0 := Runner.deliver x]> (runners w)).
Proof.
  intros Hr Hx Hp Hown Hinh. unfold step. rewrite Hx, Hp.
  unfold connect_callback. simpl. rewrite Hr.
  unfold call_property. rewrite (own_property_None _ _ Hown), Hinh.
  eexists; split; [reflexivity|]. done.
Qed.

Lemma unknown_action_raises_witness :
  ∃ w', step (Strategy_calls_back 0%nat (Success (handshake_of "bogus"))) (connect fresh)
        = Threw TypeError w'
    ∧ state w' = "connecting".
Proof.
  assert (H1 : runner (connect fresh) = Some 0%nat) by done.
  assert (H2 : runners (connect fresh) !! 0%nat
               = Some (Runner.Build 0 (strategy fresh) false false)) by done.
  assert (H3 : Runner.pending (Runner.Build 0 (strategy fresh) false false) = true) by done.
  assert (H4 : action (handshake_of "bogus") ∉ handshake_actions).
  { rewrite handshake_actions_are. simpl. rewrite !not_elem_of_cons.
    repeat (split; [done|]). apply not_elem_of_nil. }
  assert (H5 : inherited_property (action (handshake_of "bogus")) = None) by done.
  destruct (unknown_action_raises (handshake_of "bogus") 0%nat 0%nat _
              (connect fresh) H1 H2 H3 H4 H5) as (w' & Hstep & Hs & _).
  exists w'. split; [exact Hstep|]. by rewrite Hs.
Defined.

(** C5 as stated fails: a handshake with an action the table does not have
    makes the strategy's callback raise. *)
Lemma unknown_action_crashes :
  ¬ (∀ h : Handshake, action h ∉ handshake_actions →
       ∃ w', step (Strategy_calls_back 0%nat (Success h)) (connect fresh) = Returned w').
Proof.
  intros H. destruct (H (handshake_of "bogus")) as [w' Hw'].
  - rewrite handshake_actions_are. simpl. rewrite !not_elem_of_cons.
    repeat (split; [done|]). apply not_elem_of_nil.
  - vm_compute in Hw'. discriminate.
Qed.

(** The three ways [connect()] can go once it is past its two guards. *)
Lemma connect_outcome (w : World) :
  connection w = None → state w ≠ "connecting" →
  (Strategy.isSupported (strategy w) = false →
     state (connect w) = "failed"
     ∧ runners (connect w) = runners w ∧ timers (connect w) = timers w
     ∧ runner (connect w) = runner w
     ∧ unavailableTimer (connect w) = unavailableTimer w)
  ∧ (Strategy.isSupported (strategy w) = true → isOnline w = Some false →
     state (connect w) = "unavailable"
     ∧ runners (connect w) = runners w ∧ timers (connect w) = timers w
     ∧ runner (connect w) = runner w
     ∧ unavailableTimer (connect w) = unavailableTimer w)
  ∧ (Strategy.isSupported (strategy w) = true → isOnline w ≠ Some false →
     state (connect w) = "connecting"
     ∧ runners (connect w) = runners w ++ [Runner.Build 0 (strategy w) false false]
     ∧ runner (connect w) = Some (length (runners w))
     ∧ timers (connect w) =
         timers w ++ [Timer.Build (unavailableTimeout (options w))
                                  UnavailableCallback Timer.Live]
     ∧ unavailableTimer (connect w) = Some (length (timers w))).
Proof.
  intros Hc Hs. unfold connect. rewrite Hc, (bool_decide_false _ Hs).
  destruct (updateState_fields "failed" Undefined w)
    as (S1 & _ & T1 & R1 & r1 & _ & u1 & _).
  destruct (updateState_fields "unavailable" Undefined w)
    as (S2 & _ & T2 & R2 & r2 & _ & u2 & _).
  destruct (updateState_fields "connecting" Undefined w)
    as (S3 & _ & T3 & R3 & r3 & _ & u3 & _ & st3 & _ & o3 & _).
  split; [|split].
  - by intros ->.
  - intros -> Hoff. cbn [negb]. by rewrite (bool_decide_true _ Hoff).
  - intros -> Hon. cbn [negb]. rewrite (bool_decide_false _ Hon).
    unfold setUnavailableTimer. fields. by rewrite T3, R3, st3, o3.
Qed.

(** ** The network monitor's events *)



(** The part of C8 that the code misses by a slip and the theorem above
    leaves aside: [connect()] overwrites [this.runner] without aborting the
    attempt it refers to, so after the unavailable timer has fired and the
    network has come back, the first attempt is lost to the manager; going
    offline then aborts the second attempt only, and the first is still
    pending. *)
Lemma offline_misses_lost_attempt :
  Runner.pending
    <$> runners (run [Call_connect; Timer_fires 0%nat; Network_online; Network_offline]
                     fresh) !! 0%nat
  = Some true
  ∧ state (run [Call_connect; Timer_fires 0%nat; Network_online] fresh) = "connecting".
Proof. split; vm_compute; reflexivity. Qed.

(** Likewise for timers: [retryIn] overwrites [this.retryTimer] without
    cancelling the timer it refers to, and going offline then cancels the
    second retry timer only. *)
Lemma offline_misses_leaked_timer :
  state reconnected_early = "connecting"
  ∧ timers (world_of (step Network_offline reconnected_early)) !! 2%nat
    = Some (Timer.Build 1000 RetryCallback Timer.Live).
Proof. split; vm_compute; reflexivity. Qed.


(** ** The retry timer *)

(** C9, at a failing input.  The transport of an established connection
    closes, which arms a retry timer (reference 2); the caller calls
    [connect()] within the backoff second and the handshake of the new attempt
    answers [backoff]: [retryIn] arms a second retry timer (reference 4) and
    drops its reference to the first, which is neither fired nor aborted.
    Two retry timers are outstanding. *)
Theorem retry_timer_leaks :
  outstanding RetryCallback closed_by_transport = [2%nat]
  ∧ retryTimer closed_by_transport = Some 2%nat
  ∧ outstanding RetryCallback reconnected_early = [2%nat; 4%nat]
  ∧ retryTimer reconnected_early = Some 4%nat
  ∧ timers reconnected_early !! 2%nat = Some (Timer.Build 1000 RetryCallback Timer.Live)
  ∧ timers reconnected_early !! 4%nat = Some (Timer.Build 1000 RetryCallback Timer.Live).
Proof. repeat split; vm_compute; reflexivity. Qed.

(** ** The heartbeat *)

(** C7, at a failing input.  The activity timer of an established connection
    fires: the ping is sent and the pong timer (reference 2) is armed.  The
    transport then closes; the [closed] callback releases the connection and
    leaves the pong timer live.  When it fires, [this.connection.close()]
    raises a [TypeError], and [close()] was never called on the connection. *)
Theorem pong_timer_outlives_connection :
  outstanding PongCallback closed_awaiting_pong = [2%nat]
  ∧ activityTimer closed_awaiting_pong = Some 2%nat
  ∧ connection closed_awaiting_pong = None
  ∧ Connection.sent <$> connections closed_awaiting_pong !! 0%nat
      = Some [Event "pusher:ping" "{}" None]
  ∧ ∃ w', step (Timer_fires 2%nat) closed_awaiting_pong = Threw TypeError w'
      ∧ Connection.close_calls <$> connections w' !! 0%nat = Some 0%nat.
Proof.
  repeat split; try (vm_compute; reflexivity).
  eexists; split; vm_compute; reflexivity.
Qed.

(** While the manager holds a connection the heartbeat is the one of C7:
    a message aborts the activity timer and arms a new one for
    [activityTimeout] exactly when the connection does not ping natively; the
    activity callback sends the ping and arms the pong timer for
    [pongTimeout]; the pong callback calls [close()] on the connection once. *)
Lemma heartbeat_while_connected (w : World) (c : nat) (conn : Connection.t) (arg : string) :
  connection w = Some c → connections w !! c = Some conn →
  (∃ w', connectionCallbacks "message" arg w = Returned w'
     ∧ timers w' = abort_opt (activityTimer w) (timers w)
         ++ (if Connection.supportsPing conn then []
             else [Timer.Build (activityTimeout (options w)) ActivityCallback Timer.Live])
     ∧ activityTimer w' = (if Connection.supportsPing conn then activityTimer w
                           else Some (length (timers w)))
     ∧ emitted w' = emitted w ++ [ {| ev_name := "message"; ev_data := Message arg;
                                      ev_state := state w; ev_connection := Some c |} ])
  ∧ (∃ w', timer_callback ActivityCallback w = Returned w'
     ∧ connections w' !! c = Some (Connection.send_event "pusher:ping" "{}" None conn).2
     ∧ timers w' = timers w ++ [Timer.Build (pongTimeout (options w)) PongCallback Timer.Live]
     ∧ activityTimer w' = Some (length (timers w)))
  ∧ (∃ w', timer_callback PongCallback w = Returned w'
     ∧ connections w' !! c = Some (Connection.close conn)
     ∧ timers w' = timers w).
Proof.
  intros Hc Hconn.
  assert (Hlt : (c < length (connections w))%nat) by by eapply lookup_lt_Some.
  split; [|split].
  - unfold connectionCallbacks, resetActivityCheck, stopActivityCheck.
    rewrite bool_decide_true by done.
    destruct (activityTimer w) eqn:Ha; fields; rewrite Hc, Hconn;
      destruct (Connection.supportsPing conn); fields;
      (eexists; split; [reflexivity|]); fields;
      rewrite ?app_nil_r, ?length_alter, ?Hc, ?Ha; done.
  - unfold timer_callback, send_event, Connection_send_event. rewrite Hc, Hconn. simpl.
    eexists; split; [reflexivity|]. simpl.
    by rewrite list_lookup_insert_eq.
  - unfold timer_callback. rewrite Hc.
    eexists; split; [reflexivity|]. simpl.
    by rewrite list_lookup_alter_eq, Hconn.
Qed.

(** ** The invariant: a connection is held only in state [connected] *)

Lemma live_unavailable_abort_opt o l t :
  live_unavailable (abort_opt o l) t → live_unavailable l t ∧ o ≠ Some t.
Proof.
  intros (x & Hx & Hcb & Hlive).
  destruct (abort_opt_live _ _ _ _ Hx Hlive) as [H ?].
  split; [|done]. by exists x.
Qed.

Lemma live_unavailable_snoc l y t :
  live_unavailable (l ++ [y]) t →
  live_unavailable l t ∨ (t = length l ∧ Timer.callback y = UnavailableCallback).
Proof.
  intros (x & Hx & Hcb & Hlive).
  apply lookup_snoc_Some in Hx as [[_ Hx]|[-> ->]]; [left; by exists x|by right].
Qed.

Lemma live_unavailable_fired l t' y t :
  live_unavailable (<[t' := Timer.fired y]> l) t → live_unavailable l t ∧ t ≠ t'.
Proof.
  intros (x & Hx & Hcb & Hlive).
  apply list_lookup_insert_Some in Hx as [(-> & <- & _)|[Hne Hx]]; [done|].
  split; [by exists x|done].
Qed.

Lemma consistent_quiet w : consistent w → state w ≠ "connecting" → quiet w.
Proof. intros Hw Hs t Ht. by destruct (unavailable_tracked w Hw t Ht). Qed.

Lemma consistent_released w :
  consistent w → state w = "connecting" → connection w = None.
Proof.
  intros Hw Hs. destruct (connection w) eqn:Hc; [|done].
  assert (state w = "connected") by (apply (held_connected w Hw); rewrite Hc; by eexists).
  congruence.
Qed.

(** A turn that keeps the state and the unavailable timer, takes no new
    connection, makes no unavailable timer live and emits only events that
    show the world as it was, keeps the invariant. *)
Lemma consistent_frame (w w' : World) (new : list Emitted) :
  consistent w →
  state w' = state w →
  unavailableTimer w' = unavailableTimer w →
  (is_Some (connection w') → is_Some (connection w)) →
  (∀ t, live_unavailable (timers w') t → live_unavailable (timers w) t) →
  emitted w' = emitted w ++ new →
  Forall (λ e, ev_state e = state w ∧ ev_connection e = connection w) new →
  consistent w'.
Proof.
  intros [H1 H2 H3] Hs Hu Hc Ht He Hnew. split.
  - intros H. rewrite Hs. auto.
  - intros t H. rewrite Hs, Hu. auto.
  - rewrite He. apply Forall_app. split; [done|].
    eapply Forall_impl; [exact Hnew|]. intros e [Hes Hec] Hsome.
    left. rewrite Hes. apply H1. by rewrite <- Hec.
Qed.

Lemma updateState_consistent s d w :
  connection w = None → quiet w → Forall observed_ok (emitted w) →
  consistent (updateState s d w).
Proof.
  intros Hc Hq Ho.
  destruct (updateState_fields s d w) as (S & C & T & _ & _ & _ & _ & _ & _ & _ & _ & _ & E).
  split.
  - rewrite C, Hc. by intros [? ?].
  - intros t. rewrite T. intros H. by destruct (Hq t).
  - rewrite E. apply Forall_app. split; [done|].
    case_bool_decide; [|apply Forall_nil_2]. unfold transition. rewrite Hc.
    repeat apply Forall_cons_2; try apply Forall_nil_2; by intros [? ?].
Qed.

Lemma disconnect_consistent w :
  consistent w →
  consistent (disconnect w) ∧ quiet (disconnect w) ∧ connection (disconnect w) = None.
Proof.
  intros Hw.
  destruct (disconnect_fields w) as (S & C & T & _ & _ & _ & U & _ & _ & _ & _ & E).
  assert (Hq : quiet (disconnect w)).
  { intros t. rewrite T. intros H.
    apply live_unavailable_abort_opt in H as [H _].
    apply live_unavailable_abort_opt in H as [H Hne].
    apply live_unavailable_abort_opt in H as [H _].
    by destruct (unavailable_tracked w Hw t H). }
  split; [|done]. split.
  - rewrite C. by intros [? ?].
  - intros t H. by destruct (Hq t).
  - rewrite E. apply Forall_app. split; [apply (observed w Hw)|].
    case_bool_decide; [|apply Forall_nil_2]. unfold transition.
    repeat apply Forall_cons_2; try apply Forall_nil_2; intros _; by right.
Qed.

Lemma connect_consistent w : consistent w → consistent (connect w).
Proof.
  intros Hw. unfold connect.
  destruct (connection w) eqn:Hc; [done|].
  case_bool_decide as Hs; [done|].
  assert (Hq : quiet w) by by apply consistent_quiet.
  destruct (negb (Strategy.isSupported (strategy w)));
    [by apply updateState_consistent; [| |apply (observed w Hw)]|].
  case_bool_decide;
    [by apply updateState_consistent; [| |apply (observed w Hw)]|].
  pose proof (updateState_consistent "connecting" Undefined w Hc Hq (observed w Hw)) as H1.
  destruct (updateState_fields "connecting" Undefined w)
    as (S & C & T & _ & _ & _ & _ & _ & _ & _ & _ & _ & E).
  unfold setUnavailableTimer. fields. split; fields.
  - rewrite C, Hc. by intros [? ?].
  - intros t Ht. rewrite T in *.
    apply live_unavailable_snoc in Ht as [Ht|[-> _]]; [by destruct (Hq t)|].
    by rewrite S.
  - apply (observed _ H1).
Qed.

Lemma send_event_fields n d ch w :
  state (send_event n d ch w).2 = state w
  ∧ connection (send_event n d ch w).2 = connection w
  ∧ unavailableTimer (send_event n d ch w).2 = unavailableTimer w
  ∧ timers (send_event n d ch w).2 = timers w
  ∧ emitted (send_event n d ch w).2 = emitted w
  ∧ options (send_event n d ch w).2 = options w
  ∧ activityTimer (send_event n d ch w).2 = activityTimer w.
Proof.
  unfold send_event, Connection_send_event, Connection.send_event.
  destruct (connection w) as [c|] eqn:Hc; [|by fields].
  destruct (connections w !! c); by fields.
Qed.

Lemma send_fields d w :
  state (send d w).2 = state w
  ∧ connection (send d w).2 = connection w
  ∧ unavailableTimer (send d w).2 = unavailableTimer w
  ∧ timers (send d w).2 = timers w
  ∧ emitted (send d w).2 = emitted w
  ∧ activityTimer (send d w).2 = activityTimer w.
Proof.
  unfold send, Connection_send, Connection.send.
  destruct (connection w) as [c|] eqn:Hc; [|by fields].
  destruct (connections w !! c); by fields.
Qed.

(** The handshake table, name by name. *)
Lemma call_property_handshake (a : string) (h : Handshake) (w : World) :
  call_property handshakeCallbacks a h w =
    if bool_decide ("ssl_only" = a) then buildErrorCallbacks_ssl_only h w
    else if bool_decide ("refused" = a) then buildErrorCallbacks_refused h w
    else if bool_decide ("backoff" = a) then buildErrorCallbacks_backoff h w
    else if bool_decide ("retry" = a) then buildErrorCallbacks_retry h w
    else if bool_decide ("connected" = a) then buildHandshakeCallbacks_connected h w
    else match inherited_property a with
         | Some true => Returned w
         | _ => Threw TypeError w
         end.
Proof.
  unfold call_property.
  change handshakeCallbacks with
    [ ("ssl_only", buildErrorCallbacks_ssl_only);
      ("refused", buildErrorCallbacks_refused);
      ("backoff", buildErrorCallbacks_backoff);
      ("retry", buildErrorCallbacks_retry);
      ("connected", buildHandshakeCallbacks_connected) ].
  cbn [own_property].
  repeat case_bool_decide; done.
Qed.

(** Steps of a turn that keep the state and add no unavailable timer. *)
Ltac still_live H :=
  repeat first
    [ apply live_unavailable_snoc in H as [H|[_ H]]; [|discriminate H]
    | apply (live_unavailable_abort_opt (Some _)) in H as [H _]
    | apply live_unavailable_fired in H as [H _] ];
  try exact H.

Ltac framed Hw :=
  eapply (consistent_frame _ _ [] Hw); fields;
    [ done | done | done
    | let t := fresh "t" in let Ht := fresh "Ht" in intros t Ht; still_live Ht
    | by rewrite app_nil_r
    | apply Forall_nil_2 ].

Lemma resetActivityCheck_consistent w :
  consistent w →
  consistent (world_of (resetActivityCheck w))
  ∧ state (world_of (resetActivityCheck w)) = state w
  ∧ connection (world_of (resetActivityCheck w)) = connection w
  ∧ emitted (world_of (resetActivityCheck w)) = emitted w.
Proof.
  intros Hw. unfold resetActivityCheck, stopActivityCheck.
  destruct (activityTimer w) eqn:Ha; fields;
    destruct (connection w) as [c|] eqn:Hc; fields;
    try destruct (connections w !! c) as [conn|]; fields;
    try destruct (Connection.supportsPing conn); fields;
    (split; [framed Hw|done]).
Qed.

Lemma clearUnavailableTimer_consistent w :
  consistent w →
  consistent (clearUnavailableTimer w) ∧ quiet (clearUnavailableTimer w)
  ∧ state (clearUnavailableTimer w) = state w
  ∧ connection (clearUnavailableTimer w) = connection w.
Proof.
  intros Hw. unfold clearUnavailableTimer.
  destruct (unavailableTimer w) as [u|] eqn:Hu; fields.
  - split; [framed Hw|]. split; [|done]. intros t Ht. fields.
    apply (live_unavailable_abort_opt (Some u)) in Ht as [Ht Hne].
    destruct (unavailable_tracked w Hw t Ht). congruence.
  - split; [done|]. split; [|done]. intros t Ht.
    destruct (unavailable_tracked w Hw t Ht). congruence.
Qed.

(** Adopting the handshake's connection: the call returns, the state and the
    emitted events are as before, and no unavailable timer becomes live. *)
Lemma setConnection_fields conn w :
  ∃ w', setConnection (Some conn) w = Returned w'
    ∧ state w' = state w
    ∧ connection w' = Some (length (connections w))
    ∧ emitted w' = emitted w
    ∧ ∀ t, live_unavailable (timers w') t → live_unavailable (timers w) t.
Proof.
  unfold setConnection, connectionCallbackNames, resetActivityCheck, stopActivityCheck.
  cbn [foldl]. fields.
  destruct (activityTimer w) eqn:Ha; fields;
    rewrite !list_lookup_alter_eq, lookup_app_r, Nat.sub_diag by done;
    cbn [lookup list_lookup fmap option_fmap option_map Connection.bind
         Connection.supportsPing];
    destruct (Connection.supportsPing conn); cbn [negb];
    (eexists; split; [reflexivity|]); fields;
    (repeat (split; [done|])); intros t Ht; still_live Ht.
Qed.

(** Adopting a connection starts the heartbeat of C7: the activity timer is
    aborted and a new one is armed exactly when the connection does not ping
    natively. *)
Lemma adoption_starts_heartbeat conn w :
  ∃ w', setConnection (Some conn) w = Returned w'
    ∧ timers w' = abort_opt (activityTimer w) (timers w)
        ++ (if Connection.supportsPing conn then []
            else [Timer.Build (activityTimeout (options w)) ActivityCallback Timer.Live])
    ∧ activityTimer w' = (if Connection.supportsPing conn then activityTimer w
                          else Some (length (timers w))).
Proof.
  unfold setConnection, connectionCallbackNames, resetActivityCheck, stopActivityCheck.
  cbn [foldl]. fields.
  destruct (activityTimer w) eqn:Ha; fields;
    rewrite !list_lookup_alter_eq, lookup_app_r, Nat.sub_diag by done;
    cbn [lookup list_lookup fmap option_fmap option_map Connection.bind
         Connection.supportsPing];
    destruct (Connection.supportsPing conn); cbn [negb];
    (eexists; split; [reflexivity|]); fields;
    rewrite ?app_nil_r, ?length_alter, ?Ha; done.
Qed.

Lemma connected_consistent h w :
  consistent w → consistent (world_of (buildHandshakeCallbacks_connected h w)).
Proof.
  intros Hw. unfold buildHandshakeCallbacks_connected.
  destruct (clearUnavailableTimer_consistent w Hw) as (H1 & Hq & Hs & Hc).
  set (w1 := clearUnavailableTimer w) in *.
  destruct (hs_connection h) as [conn|].
  - destruct (setConnection_fields conn w1) as (w2 & -> & S2 & C2 & E2 & T2).
    fields.
    match goal with |- consistent (updateState _ _ ?v) => set (w3 := v) end.
    destruct (updateState_fields "connected" Undefined w3)
      as (S & C & T & _ & _ & _ & _ & _ & _ & _ & _ & _ & E).
    split.
    + by rewrite S.
    + intros t. rewrite T. subst w3. fields. intros Ht. by destruct (Hq t); auto.
    + rewrite E. subst w3. fields. rewrite E2.
      apply Forall_app. split; [apply (observed _ H1)|].
      case_bool_decide; [|apply Forall_nil_2]. unfold transition.
      repeat apply Forall_cons_2; try apply Forall_nil_2; intros _; by left.
  - unfold setConnection. fields. split; fields.
    + by intros [? ?].
    + apply (unavailable_tracked _ H1).
    + apply (observed _ H1).
Qed.

Lemma connect_callback_consistent result w :
  consistent w → consistent (world_of (connect_callback result w)).
Proof.
  intros Hw. unfold connect_callback. destruct result as [err|h].
  - case_bool_decide; fields; [framed Hw|].
    destruct (runner w) as [r|]; fields; [framed Hw|done].
  - destruct (runner w) as [r|]; [|done].
    assert (Hw1 : consistent (Runner_abort r w)) by framed Hw.
    rewrite call_property_handshake.
    unfold buildErrorCallbacks_ssl_only, buildErrorCallbacks_refused,
      buildErrorCallbacks_backoff, buildErrorCallbacks_retry,
      updateStrategy, retryIn.
    repeat case_bool_decide; fields.
    + framed Hw.
    + by apply disconnect_consistent.
    + framed Hw.
    + framed Hw.
    + by apply connected_consistent.
    + by destruct (inherited_property (action h)) as [[]|].
Qed.

Lemma timer_callback_consistent cb w :
  consistent w →
  (cb = UnavailableCallback → quiet w ∧ connection w = None) →
  consistent (world_of (timer_callback cb w)).
Proof.
  intros Hw Hu. destruct cb; cbn [timer_callback].
  - apply connect_consistent. by apply disconnect_consistent.
  - destruct (Hu eq_refl) as [Hq Hc].
    apply updateState_consistent; [done|done|apply (observed w Hw)].
  - destruct (send_event_fields "pusher:ping" "{}" None w) as (S & C & U & T & E & _ & _).
    set (w1 := (send_event "pusher:ping" "{}" None w).2) in *.
    fields. eapply (consistent_frame _ _ [] Hw); fields.
    + done.
    + done.
    + by rewrite C.
    + intros t Ht. rewrite T in Ht. still_live Ht.
    + by rewrite E, app_nil_r.
    + apply Forall_nil_2.
  - destruct (connection w) as [c|] eqn:Hc; fields; [|done].
    eapply (consistent_frame _ _ [] Hw); fields;
      [done|done|by rewrite Hc|done|by rewrite app_nil_r|apply Forall_nil_2].
Qed.

Lemma connectionCallbacks_consistent name arg w :
  consistent w → consistent (world_of (connectionCallbacks name arg w)).
Proof.
  intros Hw. unfold connectionCallbacks. repeat case_bool_decide; fields.
  - destruct (resetActivityCheck_consistent w Hw) as (Hw1 & S & C & E).
    destruct (resetActivityCheck w) as [w'|e w']; fields; [|done].
    eapply (consistent_frame _ _ [_] Hw1); fields; [done|done|done|done|done|].
    by apply Forall_cons_2; [|apply Forall_nil_2].
  - destruct (send_event_fields "pusher:pong" "{}" None w) as (S & C & U & T & E & _ & _).
    eapply (consistent_frame _ _ [] Hw);
      [done|done|by rewrite C|by rewrite T|by rewrite E, app_nil_r|apply Forall_nil_2].
  - destruct (send_event_fields "pusher:ping" "{}" None w) as (S & C & U & T & E & _ & _).
    eapply (consistent_frame _ _ [] Hw);
      [done|done|by rewrite C|by rewrite T|by rewrite E, app_nil_r|apply Forall_nil_2].
  - eapply (consistent_frame _ _ [_] Hw); fields; [done|done|done|done|done|].
    by apply Forall_cons_2; [|apply Forall_nil_2].
  - destruct (abandonConnection_fields w)
      as (S & C & T & _ & _ & _ & U & _ & _ & _ & _ & E).
    assert (Hw1 : consistent (abandonConnection w)).
    { eapply (consistent_frame _ _ [] Hw);
        [done|done| |by rewrite T|by rewrite E, app_nil_r|apply Forall_nil_2].
      rewrite C. by intros [? ?]. }
    destruct (shouldRetry (abandonConnection w)); fields; [|done].
    unfold retryIn. fields. framed Hw1.
  - done.
Qed.

(** One turn of the event loop keeps the invariant, whether it returns or
    raises. *)
Lemma step_consistent i w : consistent w → consistent (world_of (step i w)).
Proof.
  intros Hw. destruct i as [| |data|name data channel| | |t|r result|c name arg];
    cbn [step world_of].
  - by apply connect_consistent.
  - by apply disconnect_consistent.
  - destruct (send_fields data w) as (S & C & U & T & E & _).
    eapply (consistent_frame _ _ [] Hw);
      [done|done|by rewrite C|by rewrite T|by rewrite E, app_nil_r|apply Forall_nil_2].
  - destruct (send_event_fields name data channel w) as (S & C & U & T & E & _ & _).
    eapply (consistent_frame _ _ [] Hw);
      [done|done|by rewrite C|by rewrite T|by rewrite E, app_nil_r|apply Forall_nil_2].
  - assert (H1 : consistent (Network_report true w)) by framed Hw.
    unfold network_online. case_bool_decide; fields; [|done].
    by apply connect_consistent.
  - assert (H1 : consistent (Network_report false w)) by framed Hw.
    unfold network_offline. destruct (shouldRetry _); fields; [|done].
    destruct (disconnect_consistent _ H1) as (H2 & Hq & Hc).
    apply updateState_consistent; [done|done|apply (observed _ H2)].
  - destruct (timers w !! t) as [x|] eqn:Hx; [|done].
    destruct (Timer.is_live x) eqn:Hlive; [|done].
    assert (Hl : Timer.state x = Timer.Live).
    { unfold Timer.is_live in Hlive. by destruct (Timer.state x). }
    assert (H1 : consistent (set_timers (<[t := Timer.fired x]> (timers w)) w))
      by framed Hw.
    apply timer_callback_consistent; [done|]. intros Hcb.
    assert (Ht : live_unavailable (timers w) t) by by exists x.
    destruct (unavailable_tracked w Hw t Ht) as [Hu Hs].
    split; [|fields; by apply consistent_released].
    intros t' Ht'. fields.
    apply live_unavailable_fired in Ht' as [Ht' Hne].
    destruct (unavailable_tracked w Hw t' Ht'). congruence.
  - destruct (runners w !! r) as [x|] eqn:Hx; [|done].
    destruct (Runner.pending x); [|done].
    apply connect_callback_consistent. framed Hw.
  - destruct (connections w !! c) as [conn|]; [|done].
    case_bool_decide; [|done].
    by apply connectionCallbacks_consistent.
Qed.

Lemma ConnectionManager_consistent k o online :
  consistent (ConnectionManager k o online).
Proof.
  split; cbn.
  - by intros [? ?].
  - intros t (x & Hx & _). done.
  - apply Forall_nil_2.
Qed.

Lemma run_consistent inputs w : consistent w → consistent (run inputs w).
Proof.
  revert w. induction inputs as [|i inputs IH]; intros w Hw; [done|].
  cbn [run]. by apply IH, step_consistent.
Qed.

(** C1, as the code has it.  Whatever calls and callbacks the manager has
    gone through since it was built, between two turns it holds a connection
    only in state [connected], and every event it has emitted showed its
    subscribers a connection only in state [connected] or, during
    [disconnect()], in state [disconnected]. *)
Theorem connection_held_only_when_connected
    (k : string) (o : Options) (online : option bool) (inputs : list Input) :
  (is_Some (connection (run inputs (ConnectionManager k o online))) →
     state (run inputs (ConnectionManager k o online)) = "connected")
  ∧ Forall observed_ok (emitted (run inputs (ConnectionManager k o online))).
Proof.
  pose proof (run_consistent inputs _ (ConnectionManager_consistent k o online)) as H.
  split; [apply (held_connected _ H)|apply (observed _ H)].
Qed.

Lemma connection_held_only_when_connected_witness :
  is_Some (connection
    (run [Call_connect; Strategy_calls_back 0%nat (Success handshake_connected)]
         (ConnectionManager "app-key" sample_options None)))
  ∧ state
      (run [Call_connect; Strategy_calls_back 0%nat (Success handshake_connected)]
           (ConnectionManager "app-key" sample_options None)) = "connected".
Proof.
  assert (H : is_Some (connection
    (run [Call_connect; Strategy_calls_back 0%nat (Success handshake_connected)]
         (ConnectionManager "app-key" sample_options None))))
    by (vm_compute; by eexists).
  split; [exact H|].
  exact (proj1 (connection_held_only_when_connected "app-key" sample_options None
    [Call_connect; Strategy_calls_back 0%nat (Success handshake_connected)]) H).
Defined.

(** C1 as stated fails in both respects: after its transport has closed the
    manager is [connected] without a connection, and [disconnect()] emits its
    events in state [disconnected] with the connection still held. *)
Lemma connected_without_connection :
  ¬ (is_Some (connection closed_by_transport) ↔ state closed_by_transport = "connected")
  ∧ last (emitted (disconnect established))
      = Some {| ev_name := "disconnected"; ev_data := Undefined;
                ev_state := "disconnected"; ev_connection := Some 0%nat |}.
Proof.
  split; [|vm_compute; reflexivity].
  intros [_ H]. destruct H as [c Hc]; [vm_compute; reflexivity|].
  vm_compute in Hc. discriminate.
Qed.

(** ** The unavailable timer and the heartbeat timer are never duplicated *)

Lemma live_heartbeat_abort_opt o l t :
  live_heartbeat (abort_opt o l) t → live_heartbeat l t ∧ o ≠ Some t.
Proof.
  intros (x & Hx & Hcb & Hlive).
  destruct (abort_opt_live _ _ _ _ Hx Hlive) as [H ?].
  split; [|done]. by exists x.
Qed.

Lemma live_heartbeat_snoc l y t :
  live_heartbeat (l ++ [y]) t →
  live_heartbeat l t
  ∨ (t = length l
     ∧ (Timer.callback y = ActivityCallback ∨ Timer.callback y = PongCallback)).
Proof.
  intros (x & Hx & Hcb & Hlive).
  apply lookup_snoc_Some in Hx as [[_ Hx]|[-> ->]]; [left; by exists x|by right].
Qed.

Lemma live_heartbeat_fired l t' y t :
  live_heartbeat (<[t' := Timer.fired y]> l) t → live_heartbeat l t ∧ t ≠ t'.
Proof.
  intros (x & Hx & Hcb & Hlive).
  apply list_lookup_insert_Some in Hx as [(-> & <- & _)|[Hne Hx]]; [done|].
  split; [by exists x|done].
Qed.

Ltac still_beating H :=
  repeat first
    [ apply live_heartbeat_snoc in H as [H|[_ [H|H]]];
        [|discriminate H|discriminate H]
    | apply (live_heartbeat_abort_opt (Some _)) in H as [H _]
    | apply live_heartbeat_fired in H as [H _] ];
  try exact H.

Lemma heartbeat_frame (w w' : World) :
  heartbeat_tracked w →
  activityTimer w' = activityTimer w →
  (∀ t, live_heartbeat (timers w') t → live_heartbeat (timers w) t) →
  heartbeat_tracked w'.
Proof. intros Hw Ha Ht t H. rewrite Ha. auto. Qed.

Ltac beating Hw :=
  apply (heartbeat_frame _ _ Hw); fields;
    [ done
    | let t := fresh "t" in let Ht := fresh "Ht" in intros t Ht; still_beating Ht ].

(** Once the manager's heartbeat timer is aborted, none is live. *)
Lemma heartbeat_stopped w t :
  heartbeat_tracked w → ¬ live_heartbeat (abort_opt (activityTimer w) (timers w)) t.
Proof.
  intros Hw H. apply live_heartbeat_abort_opt in H as [H Hne]. by apply Hne, Hw.
Qed.

Lemma updateState_heartbeat s d w :
  heartbeat_tracked w → heartbeat_tracked (updateState s d w).
Proof.
  intros Hw.
  destruct (updateState_fields s d w) as (_ & _ & T & _ & _ & _ & _ & A & _).
  apply (heartbeat_frame _ _ Hw); [done|by rewrite T].
Qed.

Lemma disconnect_heartbeat w :
  heartbeat_tracked w → heartbeat_tracked (disconnect w).
Proof.
  intros Hw t.
  destruct (disconnect_fields w) as (_ & _ & T & _ & _ & _ & _ & A & _).
  rewrite T, A. intros H.
  apply live_heartbeat_abort_opt in H as [H Hne].
  apply live_heartbeat_abort_opt in H as [H _].
  apply live_heartbeat_abort_opt in H as [H _].
  by destruct Hne; apply Hw.
Qed.

Lemma connect_heartbeat w :
  heartbeat_tracked w → heartbeat_tracked (connect w).
Proof.
  intros Hw. unfold connect.
  destruct (connection w); [done|].
  case_bool_decide; [done|].
  destruct (negb (Strategy.isSupported (strategy w)));
    [by apply updateState_heartbeat|].
  case_bool_decide; [by apply updateState_heartbeat|].
  destruct (updateState_fields "connecting" Undefined w)
    as (_ & _ & T & _ & _ & _ & _ & A & _).
  unfold setUnavailableTimer.
  apply (heartbeat_frame _ _ Hw); fields; [done|].
  intros t Ht. rewrite T in Ht. still_beating Ht.
Qed.

Lemma resetActivityCheck_heartbeat w :
  heartbeat_tracked w → heartbeat_tracked (world_of (resetActivityCheck w)).
Proof.
  intros Hw. pose proof (λ t, heartbeat_stopped w t Hw) as Hstop.
  unfold resetActivityCheck, stopActivityCheck.
  destruct (activityTimer w) as [a|] eqn:Ha; fields;
    destruct (connection w) as [c|]; fields;
    try destruct (connections w !! c) as [conn|]; fields;
    try destruct (Connection.supportsPing conn); fields;
    intros t Ht; fields;
    try (apply live_heartbeat_snoc in Ht as [Ht|[-> _]]; [|done]);
    by destruct (Hstop t).
Qed.

Lemma setConnection_heartbeat conn w :
  heartbeat_tracked w → heartbeat_tracked (world_of (setConnection conn w)).
Proof.
  intros Hw. unfold setConnection, connectionCallbackNames.
  destruct conn as [conn|]; cbn [foldl]; fields; [|done].
  apply resetActivityCheck_heartbeat. by beating Hw.
Qed.

Lemma connected_heartbeat h w :
  heartbeat_tracked w →
  heartbeat_tracked (world_of (buildHandshakeCallbacks_connected h w)).
Proof.
  intros Hw. unfold buildHandshakeCallbacks_connected.
  assert (H1 : heartbeat_tracked (clearUnavailableTimer w)).
  { unfold clearUnavailableTimer. destruct (unavailableTimer w); [|done].
    beating Hw. }
  pose proof (setConnection_heartbeat (hs_connection h) _ H1) as H2.
  destruct (setConnection _ _) as [w2|e w2]; fields; [|done].
  apply updateState_heartbeat. beating H2.
Qed.

Lemma connect_callback_heartbeat result w :
  heartbeat_tracked w → heartbeat_tracked (world_of (connect_callback result w)).
Proof.
  intros Hw. unfold connect_callback. destruct result as [err|h].
  - case_bool_decide; fields; [beating Hw|].
    destruct (runner w) as [r|]; fields; [beating Hw|done].
  - destruct (runner w) as [r|]; [|done].
    assert (Hw1 : heartbeat_tracked (Runner_abort r w)) by beating Hw.
    rewrite call_property_handshake.
    unfold buildErrorCallbacks_ssl_only, buildErrorCallbacks_refused,
      buildErrorCallbacks_backoff, buildErrorCallbacks_retry,
      updateStrategy, retryIn.
    repeat case_bool_decide; fields.
    + beating Hw.
    + by apply disconnect_heartbeat.
    + beating Hw.
    + beating Hw.
    + by apply connected_heartbeat.
    + by destruct (inherited_property (action h)) as [[]|].
Qed.

Lemma connectionCallbacks_heartbeat name arg w :
  heartbeat_tracked w →
  heartbeat_tracked (world_of (connectionCallbacks name arg w)).
Proof.
  intros Hw. unfold connectionCallbacks. repeat case_bool_decide; fields.
  - pose proof (resetActivityCheck_heartbeat w Hw) as Hw1.
    destruct (resetActivityCheck w) as [w'|e w']; fields; [|done].
    beating Hw1.
  - destruct (send_event_fields "pusher:pong" "{}" None w)
      as (_ & _ & _ & T & _ & _ & A).
    apply (heartbeat_frame _ _ Hw); [done|by rewrite T].
  - destruct (send_event_fields "pusher:ping" "{}" None w)
      as (_ & _ & _ & T & _ & _ & A).
    apply (heartbeat_frame _ _ Hw); [done|by rewrite T].
  - beating Hw.
  - destruct (abandonConnection_fields w) as (_ & _ & T & _ & _ & _ & _ & A & _).
    assert (Hw1 : heartbeat_tracked (abandonConnection w))
      by (apply (heartbeat_frame _ _ Hw); [done|by rewrite T]).
    destruct (shouldRetry (abandonConnection w)); fields; [|done].
    unfold retryIn. beating Hw1.
  - done.
Qed.

Lemma timer_callback_heartbeat cb w :
  heartbeat_tracked w →
  (cb = ActivityCallback → ∀ t, ¬ live_heartbeat (timers w) t) →
  heartbeat_tracked (world_of (timer_callback cb w)).
Proof.
  intros Hw Hact. destruct cb; cbn [timer_callback].
  - by apply connect_heartbeat, disconnect_heartbeat.
  - by apply updateState_heartbeat.
  - destruct (send_event_fields "pusher:ping" "{}" None w)
      as (_ & _ & _ & T & _ & _ & A).
    fields. intros t Ht. fields. rewrite T in *.
    apply live_heartbeat_snoc in Ht as [Ht|[-> _]]; [|done].
    by destruct (Hact eq_refl t).
  - destruct (connection w) as [c|]; fields; [|done]. beating Hw.
Qed.

Lemma step_heartbeat i w :
  heartbeat_tracked w → heartbeat_tracked (world_of (step i w)).
Proof.
  intros Hw. destruct i as [| |data|name data channel| | |t|r result|c name arg];
    cbn [step world_of].
  - by apply connect_heartbeat.
  - by apply disconnect_heartbeat.
  - destruct (send_fields data w) as (_ & _ & _ & T & _ & A).
    apply (heartbeat_frame _ _ Hw); [done|by rewrite T].
  - destruct (send_event_fields name data channel w) as (_ & _ & _ & T & _ & _ & A).
    apply (heartbeat_frame _ _ Hw); [done|by rewrite T].
  - assert (H1 : heartbeat_tracked (Network_report true w)) by beating Hw.
    unfold network_online. case_bool_decide; [|done].
    by apply connect_heartbeat.
  - assert (H1 : heartbeat_tracked (Network_report false w)) by beating Hw.
    unfold network_offline. destruct (shouldRetry _); [|done].
    by apply updateState_heartbeat, disconnect_heartbeat.
  - destruct (timers w !! t) as [x|] eqn:Hx; [|done].
    destruct (Timer.is_live x) eqn:Hlive; [|done].
    assert (Hl : Timer.state x = Timer.Live).
    { unfold Timer.is_live in Hlive. by destruct (Timer.state x). }
    assert (H1 : heartbeat_tracked (set_timers (<[t := Timer.fired x]> (timers w)) w))
      by beating Hw.
    apply timer_callback_heartbeat; [done|]. intros Hcb t' Ht'. fields.
    apply live_heartbeat_fired in Ht' as [Ht' Hne].
    assert (Ht : live_heartbeat (timers w) t) by (exists x; auto).
    apply Hw in Ht, Ht'. congruence.
  - destruct (runners w !! r) as [x|] eqn:Hx; [|done].
    destruct (Runner.pending x); [|done].
    apply connect_callback_heartbeat. beating Hw.
  - destruct (connections w !! c) as [conn|]; [|done].
    case_bool_decide; [|done].
    by apply connectionCallbacks_heartbeat.
Qed.

Lemma run_heartbeat inputs w : heartbeat_tracked w → heartbeat_tracked (run inputs w).
Proof.
  revert w. induction inputs as [|i inputs IH]; intros w Hw; [done|].
  cbn [run]. by apply IH, step_heartbeat.
Qed.

(** The part of C9 that holds: between two turns at most one unavailable
    timer and at most one activity or pong timer is outstanding, and it is the
    one the manager refers to. *)
Lemma unavailable_and_heartbeat_timers_unique
    (k : string) (o : Options) (online : option bool) (inputs : list Input) (t t' : nat) :
  (live_unavailable (timers (run inputs (ConnectionManager k o online))) t →
   live_unavailable (timers (run inputs (ConnectionManager k o online))) t' → t = t')
  ∧ (live_heartbeat (timers (run inputs (ConnectionManager k o online))) t →
     live_heartbeat (timers (run inputs (ConnectionManager k o online))) t' → t = t').
Proof.
  pose proof (run_consistent inputs _ (ConnectionManager_consistent k o online)) as H.
  assert (H0 : heartbeat_tracked (ConnectionManager k o online))
    by (intros ? (? & ? & _); done).
  pose proof (run_heartbeat inputs _ H0) as H'.
  split.
  - intros H1 H2. apply (unavailable_tracked _ H) in H1 as [H1 _], H2 as [H2 _].
    congruence.
  - intros H1 H2. apply H' in H1, H2. congruence.
Qed.

(** * More of the manager *)

(** ** Every method is a sequence of primitive actions *)

Lemma setConnection_adopt conn w :
  setConnection (Some conn) w = resetActivityCheck (adopt conn w).
Proof. reflexivity. Qed.

Lemma effect_rtc_r w1 w2 w3 : rtc effect w1 w2 → effect w2 w3 → rtc effect w1 w3.
Proof. intros H12 H23. eapply rtc_r; eauto. Qed.

(** The store actions, for a store read off a later world. *)
Lemma effect_arm_at d cb l w :
  l = timers w → effect w (set_timers (l ++ [Timer.Build d cb Timer.Live]) w).
Proof. intros ->. constructor. Qed.

Lemma effect_ensureAborted_at t l w :
  l = timers w → effect w (set_timers (alter Timer.ensureAborted t l) w).
Proof. intros ->. constructor. Qed.

Lemma effect_fire_at t x l w :
  l = timers w → effect w (set_timers (<[t := Timer.fired x]> l) w).
Proof. intros ->. constructor. Qed.

Lemma effect_start_at rc l st w :
  l = runners w → st = strategy w →
  effect w (set_runners (l ++ [Runner.Build rc st false false]) w).
Proof. intros -> ->. constructor. Qed.

Lemma effect_abort_at r l w :
  l = runners w → effect w (set_runners (alter Runner.abort r l) w).
Proof. intros ->. constructor. Qed.

Lemma effect_deliver_at r x l w :
  l = runners w → effect w (set_runners (<[r := Runner.deliver x]> l) w).
Proof. intros ->. constructor. Qed.

Ltac act :=
  lazymatch goal with
  | |- effect _ (updateState _ _ _) => apply effect_updateState
  | |- effect _ (emit _ _ _) => apply effect_emit; intros; discriminate
  | |- effect _ (set_timers (_ ++ _) _) => eapply effect_arm_at; fields; reflexivity
  | |- effect _ (set_timers (alter _ _ _) _) =>
      eapply effect_ensureAborted_at; fields; reflexivity
  | |- effect _ (Timer_ensureAborted _ _) => apply effect_ensureAborted
  | |- effect _ (set_timers (<[_ := _]> _) _) =>
      eapply effect_fire_at; fields; reflexivity
  | |- effect _ (set_runners (_ ++ _) _) =>
      eapply effect_start_at; fields; reflexivity
  | |- effect _ (set_runners (alter _ _ _) _) =>
      eapply effect_abort_at; fields; reflexivity
  | |- effect _ (Runner_abort _ _) => apply effect_abort
  | |- effect _ (set_runners (<[_ := _]> _) _) =>
      eapply effect_deliver_at; fields; reflexivity
  | |- effect _ (snd (Connection_send _ _ _)) => apply effect_send
  | |- effect _ (snd (Connection_send_event _ _ _ _ _)) => apply effect_send_event
  | |- effect _ (Connection_close _ _) => apply effect_close
  | |- effect _ (set_connections (alter Connection.close _ _) _) => apply effect_close
  | |- effect _ (adopt _ _) => apply effect_adopt
  | |- effect _ (abandonConnection _) => apply effect_abandon
  | |- effect _ (set_connection None _) => apply effect_no_connection
  | |- effect _ (updateStrategy _) => apply effect_ssl_only
  | |- effect _ (set_runner _ _) => apply effect_runner
  | |- effect _ (set_retryTimer _ _) => apply effect_retryTimer
  | |- effect _ (set_unavailableTimer _ _) => apply effect_unavailableTimer
  | |- effect _ (set_activityTimer _ _) => apply effect_activityTimer
  | |- effect _ (set_socket_id _ _) => apply effect_socket_id
  | |- effect _ (set_timelineSender _ _) => apply effect_timelineSender
  | |- effect _ (Network_report _ _) => apply effect_report
  | |- effect _ (set_isOnline (Some _) _) => apply effect_report
  end.

(** Peel the outermost action off the world reached. *)
Ltac acts :=
  repeat first
    [ apply rtc_refl
    | eassumption
    | eapply effect_rtc_r; [|act] ].

Lemma abort_timer_effects (o : option nat) w :
  rtc effect w (match o with Some t => Timer_ensureAborted t w | None => w end).
Proof. destruct o; acts. Qed.

Lemma disconnect_effects w : rtc effect w (disconnect w).
Proof.
  unfold disconnect.
  set (w1 := match runner w with Some r => Runner_abort r w | None => w end).
  assert (H1 : rtc effect w w1) by (subst w1; destruct (runner w); acts).
  assert (H2 : rtc effect w (clearRetryTimer w1))
    by (etrans; [exact H1|apply abort_timer_effects]).
  assert (H3 : rtc effect w (clearUnavailableTimer (clearRetryTimer w1)))
    by (etrans; [exact H2|apply abort_timer_effects]).
  assert (H4 : rtc effect w
                 (stopActivityCheck (clearUnavailableTimer (clearRetryTimer w1))))
    by (etrans; [exact H3|apply abort_timer_effects]).
  set (w4 := stopActivityCheck _) in *.
  destruct (connection (updateState "disconnected" Undefined w4)); acts.
Qed.

Lemma connect_effects w : rtc effect w (connect w).
Proof.
  unfold connect, setUnavailableTimer.
  destruct (connection w); [acts|]. fields.
  case_bool_decide; [acts|].
  destruct (negb (Strategy.isSupported (strategy w))); [acts|].
  case_bool_decide; acts.
Qed.

Lemma resetActivityCheck_effects w : rtc effect w (world_of (resetActivityCheck w)).
Proof.
  unfold resetActivityCheck.
  assert (H1 : rtc effect w (stopActivityCheck w)) by apply abort_timer_effects.
  set (w1 := stopActivityCheck w) in *.
  destruct (connection w1) as [c|]; fields; [|acts].
  destruct (connections w1 !! c) as [conn|]; fields; [|acts].
  destruct (Connection.supportsPing conn); cbn [negb]; fields; acts.
Qed.

Lemma setConnection_effects conn w : rtc effect w (world_of (setConnection conn w)).
Proof.
  destruct conn as [conn|].
  - rewrite setConnection_adopt. etrans; [|apply resetActivityCheck_effects]. acts.
  - cbn [setConnection world_of]. acts.
Qed.

Lemma connected_effects h w :
  rtc effect w (world_of (buildHandshakeCallbacks_connected h w)).
Proof.
  unfold buildHandshakeCallbacks_connected.
  assert (H1 : rtc effect w (clearUnavailableTimer w)) by apply abort_timer_effects.
  pose proof (setConnection_effects (hs_connection h) (clearUnavailableTimer w)) as H2.
  destruct (setConnection _ _) as [w2|e w2]; fields.
  - assert (H3 : rtc effect w w2) by (etrans; eauto). acts.
  - etrans; eauto.
Qed.

Lemma connect_callback_effects result w :
  rtc effect w (world_of (connect_callback result w)).
Proof.
  unfold connect_callback. destruct result as [err|h]; fields.
  { case_bool_decide; fields; [acts|]. destruct (runner w); fields; acts. }
  destruct (runner w) as [r|]; fields; [|acts].
  assert (H1 : rtc effect w (Runner_abort r w)) by acts.
  rewrite call_property_handshake.
  unfold buildErrorCallbacks_ssl_only, buildErrorCallbacks_refused,
    buildErrorCallbacks_backoff, buildErrorCallbacks_retry, retryIn.
  repeat case_bool_decide; fields.
  - acts.
  - etrans; [exact H1|apply disconnect_effects].
  - acts.
  - acts.
  - etrans; [exact H1|apply connected_effects].
  - by destruct (inherited_property (action h)) as [[]|].
Qed.

Lemma send_effects d w : rtc effect w (send d w).2.
Proof. unfold send. destruct (connection w); fields; acts. Qed.

Lemma send_event_effects n d ch w : rtc effect w (send_event n d ch w).2.
Proof. unfold send_event. destruct (connection w); fields; acts. Qed.

Lemma connectionCallbacks_effects name arg w :
  rtc effect w (world_of (connectionCallbacks name arg w)).
Proof.
  unfold connectionCallbacks, retryIn. repeat case_bool_decide; fields.
  - pose proof (resetActivityCheck_effects w) as Hr.
    destruct (resetActivityCheck w) as [w'|e w']; fields; [|done].
    eapply effect_rtc_r; [exact Hr|]. by constructor.
  - apply send_event_effects.
  - apply send_event_effects.
  - eapply effect_rtc_r; [apply rtc_refl|]. by constructor.
  - destruct (shouldRetry (abandonConnection w)); fields; acts.
  - acts.
Qed.

Lemma timer_callback_effects cb w : rtc effect w (world_of (timer_callback cb w)).
Proof.
  destruct cb; cbn [timer_callback]; fields.
  - etrans; [apply disconnect_effects|apply connect_effects].
  - acts.
  - pose proof (send_event_effects "pusher:ping" "{}" None w) as Hs. acts.
  - destruct (connection w); fields; acts.
Qed.

(** One turn of the event loop is a sequence of primitive actions. *)
Lemma step_effects i w : rtc effect w (world_of (step i w)).
Proof.
  destruct i as [| |data|name data channel| | |t|r result|c name arg];
    cbn [step world_of].
  - apply connect_effects.
  - apply disconnect_effects.
  - apply send_effects.
  - apply send_event_effects.
  - unfold network_online. case_bool_decide; [|acts].
    etrans; [|apply connect_effects]. acts.
  - unfold network_offline. destruct (shouldRetry _); [|acts].
    eapply effect_rtc_r; [|by constructor].
    etrans; [|apply disconnect_effects]. acts.
  - destruct (timers w !! t) as [x|]; [|acts].
    destruct (Timer.is_live x); [|acts].
    etrans; [|apply timer_callback_effects]. acts.
  - destruct (runners w !! r) as [x|]; [|acts].
    destruct (Runner.pending x); [|acts].
    etrans; [|apply connect_callback_effects]. acts.
  - destruct (connections w !! c) as [conn|]; [|acts].
    case_bool_decide; [|acts].
    apply connectionCallbacks_effects.
Qed.

(** What every primitive action keeps is kept by every run. *)
Lemma run_keeps (P : World → Prop) :
  (∀ w w', effect w w' → P w → P w') →
  ∀ inputs w, P w → P (run inputs w).
Proof.
  intros Heff inputs. induction inputs as [|i inputs IH]; intros w Hw; [done|].
  cbn [run]. apply IH.
  pose proof (step_effects i w) as Hs.
  induction Hs as [|w1 w2 w3 H12 _ IH']; [done|]. apply IH'. eauto.
Qed.

(** Case analysis on a primitive action, down to the fields it writes. *)
Ltac open_effect H :=
  destruct H;
  unfold updateState, updateStrategy, adopt, abandonConnection,
    Connection_send, Connection_send_event, Connection.send, Connection.send_event,
    connectionCallbackNames in *;
  repeat case_bool_decide; repeat case_match;
  cbn [foldl] in *; fields.

(** ** The encrypted flag and the strategy *)

Lemma effect_static w w' :
  effect w w' →
  key w' = key w ∧ options w' = options w
  ∧ ((encrypted w' = encrypted w ∧ strategy w' = strategy w)
     ∨ (encrypted w' = true ∧ strategy w' = getStrategy (options w) (key w) true)).
Proof. intros H. open_effect H; auto. Qed.

(** The key and the options never change; once the encrypted flag is on it
    stays on; and a strategy that was obtained for the current flag is, after
    any run, the one obtained for the flag as it is then. *)
Theorem strategy_follows_encryption (w : World) (inputs : list Input) :
  key (run inputs w) = key w
  ∧ options (run inputs w) = options w
  ∧ (encrypted w = true → encrypted (run inputs w) = true)
  ∧ (strategy w = getStrategy (options w) (key w) (encrypted w) →
     strategy (run inputs w)
       = getStrategy (options w) (key w) (encrypted (run inputs w))).
Proof.
  apply (run_keeps (λ w',
    key w' = key w ∧ options w' = options w
    ∧ (encrypted w = true → encrypted w' = true)
    ∧ (strategy w = getStrategy (options w) (key w) (encrypted w) →
       strategy w' = getStrategy (options w) (key w) (encrypted w')))); [|done].
  intros w1 w2 Heff (Hk & Ho & He & Hs).
  destruct (effect_static _ _ Heff) as (Hk' & Ho' & [[He' Hs']|[He' Hs']]).
  - rewrite Hk', Ho', He', Hs'. auto.
  - rewrite Hk', Ho', He', Hs', Hk, Ho. auto.
Qed.

(** ** The emitted events follow the state *)

Lemma replay_app s l l' : replay s (l ++ l') = foldl follow (replay s l) l'.
Proof. unfold replay. apply foldl_app. Qed.

Lemma effect_replay s0 w w' :
  effect w w' →
  replay s0 (emitted w) = Some (state w, false) →
  replay s0 (emitted w') = Some (state w', false).
Proof.
  intros H Hr. destruct H;
    unfold updateStrategy, adopt, Connection_send, Connection_send_event,
      Connection.send, Connection.send_event, connectionCallbackNames in *;
    repeat case_match; cbn [foldl] in *; fields; try done.
  - destruct (updateState_fields s Undefined w)
      as (S & _ & _ & _ & _ & _ & _ & _ & _ & _ & _ & _ & E).
    rewrite S, E, replay_app, Hr. case_bool_decide as Hne;
      [|cbn [foldl]; congruence].
    unfold transition. cbn [foldl follow ev_data ev_name ev_state].
    case_bool_decide as Hd; [|destruct Hd; repeat split; congruence].
    cbn [follow ev_name ev_state]. by rewrite bool_decide_true.
  - rewrite replay_app, Hr. cbn [foldl follow ev_data ev_state].
    destruct d; try by rewrite bool_decide_true.
    by destruct (H previous current).
  - destruct (abandonConnection_fields w)
      as (S & _ & _ & _ & _ & _ & _ & _ & _ & _ & _ & E).
    by rewrite S, E.
Qed.

(** The emitted events tell the manager's story: read from the start, every
    "state_change" leaves the state reached so far for a different one and is
    followed at once by the event named after the new state, every event
    shows its subscribers the state reached so far, and the state reached at
    the end is the manager's. *)
Theorem emitted_events_follow_state
    (k : string) (o : Options) (online : option bool) (inputs : list Input) :
  replay "initialized" (emitted (run inputs (ConnectionManager k o online)))
    = Some (state (run inputs (ConnectionManager k o online)), false).
Proof.
  apply (run_keeps (λ w, replay "initialized" (emitted w) = Some (state w, false)));
    [apply effect_replay|done].
Qed.

(** ** The held connection has the manager's callbacks bound *)

Lemma effect_held_is_bound w w' : effect w w' → held_is_bound w → held_is_bound w'.
Proof.
  intros H Hw.
  destruct H;
    try (destruct (updateState_fields s Undefined w)
           as (_ & C & _ & _ & _ & _ & _ & _ & _ & _ & _ & CN & _);
         intros c' Hc'; rewrite C in Hc'; rewrite CN; by apply Hw);
    try (destruct (abandonConnection_fields w) as (_ & C & _);
         intros c' Hc'; by rewrite C in Hc');
    try (intros c' Hc'; fields; by apply Hw).
  - (* send *)
    intros c' Hc'. unfold Connection_send, Connection.send in *.
    destruct (connections w !! c) as [conn|] eqn:Hconn; fields; [|by apply Hw].
    destruct (Hw c' Hc') as (conn' & Hl & Hb).
    destruct (decide (c = c')) as [->|Hne].
    + rewrite list_lookup_insert_eq by by eapply lookup_lt_Some.
      eexists; split; [done|]. simplify_eq. exact Hb.
    + rewrite list_lookup_insert_ne by done. eauto.
  - (* send_event *)
    intros c' Hc'. unfold Connection_send_event, Connection.send_event in *.
    destruct (connections w !! c) as [conn|] eqn:Hconn; fields; [|by apply Hw].
    destruct (Hw c' Hc') as (conn' & Hl & Hb).
    destruct (decide (c = c')) as [->|Hne].
    + rewrite list_lookup_insert_eq by by eapply lookup_lt_Some.
      eexists; split; [done|]. simplify_eq. exact Hb.
    + rewrite list_lookup_insert_ne by done. eauto.
  - (* close *)
    intros c' Hc'. fields. destruct (Hw c' Hc') as (conn' & Hl & Hb).
    destruct (decide (c = c')) as [->|Hne].
    + rewrite list_lookup_alter_eq, Hl. eexists; split; [done|]. exact Hb.
    + rewrite list_lookup_alter_ne by done. eauto.
  - (* adopt *)
    intros c' Hc'. unfold adopt, connectionCallbackNames in *.
    cbn [foldl] in *. fields. simplify_eq.
    rewrite !list_lookup_alter_eq, lookup_app_r, Nat.sub_diag by done.
    eexists; split; [reflexivity|].
    intros event Hev. cbn [Connection.bound Connection.bind].
    rewrite !elem_of_app, !list_elem_of_singleton.
    repeat (apply elem_of_cons in Hev as [->|Hev]; [tauto|]).
    by apply elem_of_nil in Hev.
Qed.

(** Whatever the manager has gone through, a connection it holds is in the
    store and has a callback bound for each of the five connection events. *)
Theorem held_connection_is_bound
    (k : string) (o : Options) (online : option bool) (inputs : list Input) (c : nat) :
  connection (run inputs (ConnectionManager k o online)) = Some c →
  ∃ conn, connections (run inputs (ConnectionManager k o online)) !! c = Some conn
          ∧ ∀ event, event ∈ ["message"; "ping"; "ping_request"; "error"; "closed"] →
                     event ∈ Connection.bound conn.
Proof.
  revert c. change (held_is_bound (run inputs (ConnectionManager k o online))).
  apply (run_keeps held_is_bound); [apply effect_held_is_bound|].
  by intros c Hc.
Qed.

(** ** disconnect *)

Lemma world_eq (w w' : World) :
  key w = key w' → options w = options w' → state w = state w' →
  connection w = connection w' → encrypted w = encrypted w' →
  strategy w = strategy w' → runner w = runner w' →
  retryTimer w = retryTimer w' → unavailableTimer w = unavailableTimer w' →
  activityTimer w = activityTimer w' → socket_id w = socket_id w' →
  timelineSender w = timelineSender w' → timers w = timers w' →
  runners w = runners w' → connections w = connections w' →
  isOnline w = isOnline w' → emitted w = emitted w' →
  w = w'.
Proof. destruct w, w'. cbn. by intros; subst. Qed.

(** The fields [disconnect()] never writes, and the connections it leaves
    alone when none is held. *)
Lemma disconnect_untouched (w : World) :
  key (disconnect w) = key w
  ∧ encrypted (disconnect w) = encrypted w
  ∧ socket_id (disconnect w) = socket_id w
  ∧ timelineSender (disconnect w) = timelineSender w
  ∧ (connection w = None → connections (disconnect w) = connections w).
Proof.
  unfold disconnect, clearRetryTimer, clearUnavailableTimer, stopActivityCheck,
    updateState, abandonConnection, connectionCallbackNames.
  destruct (runner w) eqn:?; fields;
    destruct (retryTimer w) eqn:?; fields;
    destruct (unavailableTimer w) eqn:?; fields;
    destruct (activityTimer w) eqn:?; fields;
    case_bool_decide; fields;
    destruct (connection w) eqn:?; cbn [foldl]; fields; done.
Qed.

Lemma ensureAborted_twice x :
  Timer.ensureAborted (Timer.ensureAborted x) = Timer.ensureAborted x.
Proof. unfold Timer.ensureAborted. by destruct x as [d cb []]. Qed.

Lemma abort_opt_lookup o l n :
  abort_opt o l !! n
  = (if bool_decide (o = Some n) then Timer.ensureAborted else id) <$> l !! n.
Proof.
  destruct o as [t|]; cbn [abort_opt].
  - case_bool_decide as H.
    + simplify_eq. apply list_lookup_alter_eq.
    + rewrite list_lookup_alter_ne by congruence. by destruct (l !! n).
  - rewrite bool_decide_false by done. by destruct (l !! n).
Qed.

Lemma abort_thrice_twice a u r l :
  abort_opt a (abort_opt u (abort_opt r (abort_opt a (abort_opt u (abort_opt r l)))))
  = abort_opt a (abort_opt u (abort_opt r l)).
Proof.
  apply list_eq. intros n. rewrite !abort_opt_lookup.
  destruct (l !! n) as [x|]; [|done]. cbn.
  repeat case_bool_decide; cbn; by rewrite ?ensureAborted_twice.
Qed.

(** [disconnect()] is idempotent: a second call changes nothing and emits
    nothing. *)
Theorem disconnect_idempotent (w : World) :
  disconnect (disconnect w) = disconnect w.
Proof.
  destruct (disconnect_fields w)
    as (S & C & T & R & r & rt & ut & act & st & on & op & E).
  destruct (disconnect_fields (disconnect w))
    as (S' & C' & T' & R' & r' & rt' & ut' & act' & st' & on' & op' & E').
  destruct (disconnect_untouched (disconnect w)) as (K' & e' & sid' & tl' & CN').
  apply world_eq; try done; try congruence.
  - rewrite T', rt, ut, act, T. apply abort_thrice_twice.
  - rewrite R', r, R. apply abort_runner_twice.
  - by apply CN'.
  - rewrite E', S. rewrite bool_decide_false by auto. apply app_nil_r.
Qed.

(** A connection with none of the manager's callbacks bound cannot reach the
    manager. *)
Lemma unbound_is_silent (w : World) c conn name arg :
  connections w !! c = Some conn →
  (∀ event, event ∈ connectionCallbackNames → event ∉ Connection.bound conn) →
  step (Connection_emits c name arg) w = Returned w.
Proof.
  intros Hconn Hunbound. cbn [step]. rewrite Hconn.
  case_bool_decide as Hin; [|done].
  assert (Hname : name ∉ connectionCallbackNames) by (intros ?; by eapply Hunbound).
  unfold connectionCallbacks, connectionCallbackNames in *.
  repeat case_bool_decide; subst; try done; destruct Hname;
    apply list_elem_of_In; cbn; tauto.
Qed.

Lemma unbind_all_unbound (l : list string) event :
  event ∈ connectionCallbackNames →
  event ∉ filter (λ e, e ≠ "closed") (filter (λ e, e ≠ "error")
            (filter (λ e, e ≠ "ping_request") (filter (λ e, e ≠ "ping")
               (filter (λ e, e ≠ "message") l)))).
Proof.
  intros Hev Hin. rewrite !list_elem_of_filter in Hin.
  destruct Hin as (? & ? & ? & ? & ? & _).
  unfold connectionCallbackNames in Hev.
  repeat (apply elem_of_cons in Hev as [->|Hev]; [done|]).
  by apply elem_of_nil in Hev.
Qed.

(** What [disconnect()] does to the connection it holds. *)
Lemma disconnect_connection (w : World) c conn :
  connection w = Some c → connections w !! c = Some conn →
  connections (disconnect w) !! c
  = Some (Connection.Build (Connection.id conn) (Connection.supportsPing conn)
            (Connection.writable conn)
            (filter (λ e, e ≠ "closed") (filter (λ e, e ≠ "error")
               (filter (λ e, e ≠ "ping_request") (filter (λ e, e ≠ "ping")
                  (filter (λ e, e ≠ "message") (Connection.bound conn))))))
            (Connection.sent conn) (S (Connection.close_calls conn))).
Proof.
  intros Hc Hconn.
  unfold disconnect, clearRetryTimer, clearUnavailableTimer, stopActivityCheck,
    updateState, abandonConnection, connectionCallbackNames.
  destruct (runner w) eqn:?; fields;
    destruct (retryTimer w) eqn:?; fields;
    destruct (unavailableTimer w) eqn:?; fields;
    destruct (activityTimer w) eqn:?; fields;
    case_bool_decide; fields;
    rewrite Hc; cbn [foldl]; fields;
    by rewrite !list_lookup_alter_eq, Hconn.
Qed.

(** [disconnect()] with a connection held: [close()] is called on it exactly
    once, nothing is sent to it, none of the manager's callbacks stays bound
    on it, and from then on no event of that connection changes the
    manager. *)
Theorem disconnect_releases (w : World) (c : nat) (conn : Connection.t) :
  connection w = Some c → connections w !! c = Some conn →
  ∃ conn', connections (disconnect w) !! c = Some conn'
    ∧ Connection.close_calls conn' = S (Connection.close_calls conn)
    ∧ Connection.sent conn' = Connection.sent conn
    ∧ (∀ event, event ∈ connectionCallbackNames → event ∉ Connection.bound conn')
    ∧ ∀ name arg,
        step (Connection_emits c name arg) (disconnect w) = Returned (disconnect w).
Proof.
  intros Hc Hconn.
  pose proof (disconnect_connection w c conn Hc Hconn) as Hl.
  eexists; split; [exact Hl|]. cbn [Connection.close_calls Connection.sent Connection.bound].
  split; [done|]. split; [done|]. split; [apply unbind_all_unbound|].
  intros name arg. eapply unbound_is_silent; [exact Hl|].
  apply unbind_all_unbound.
Qed.

Lemma disconnect_releases_witness :
  connection established = Some 0%nat
  ∧ ∃ conn', connections (disconnect established) !! 0%nat = Some conn'
      ∧ Connection.close_calls conn' = 1%nat.
Proof.
  assert (H1 : connection established = Some 0%nat) by done.
  assert (H2 : connections established !! 0%nat
               = Some (Connection.Build "42" false true
                         ["message"; "ping"; "ping_request"; "error"; "closed"] [] 0))
    by done.
  split; [exact H1|].
  destruct (disconnect_releases established 0%nat _ H1 H2) as (conn' & Hl & Hcl & _).
  exists conn'. split; [exact Hl|exact Hcl].
Defined.

(** ** The handshake callback [connected] *)

Lemma updateState_socket_id s d w : socket_id (updateState s d w) = socket_id w.
Proof. unfold updateState. by case_bool_decide. Qed.

Lemma connected_callback_result h conn w :
  hs_connection h = Some conn →
  ∃ w', buildHandshakeCallbacks_connected h w = Returned w'
    ∧ state w' = "connected"
    ∧ connection w' = Some (length (connections w))
    ∧ socket_id w' = Some (Connection.id conn)
    ∧ connections w' !! length (connections w)
        = Some (Connection.Build (Connection.id conn) (Connection.supportsPing conn)
                  (Connection.writable conn)
                  (Connection.bound conn ++ connectionCallbackNames)
                  (Connection.sent conn) (Connection.close_calls conn))
    ∧ (∀ t, unavailableTimer w = Some t → ¬ live_unavailable (timers w') t)
    ∧ runners w' = runners w
    ∧ emitted w'
        = emitted w ++ (if bool_decide (state w ≠ "connected")
                        then transition (state w) "connected" Undefined
                               (Some (length (connections w)))
                        else []).
Proof.
  intros Hconn.
  unfold buildHandshakeCallbacks_connected, clearUnavailableTimer, setConnection,
    resetActivityCheck, stopActivityCheck, connectionCallbackNames.
  rewrite Hconn.
  destruct (unavailableTimer w) as [u|] eqn:Hu; fields; cbn [foldl]; fields;
    destruct (activityTimer w) as [a|] eqn:Ha; fields;
    rewrite !list_lookup_alter_eq, lookup_app_r, Nat.sub_diag by done;
    cbn [lookup list_lookup fmap option_fmap option_map Connection.bind
         Connection.supportsPing Connection.id];
    destruct (Connection.supportsPing conn) eqn:Hping; cbn [negb]; fields;
    rewrite ?list_lookup_alter_eq, ?lookup_app_r, ?Nat.sub_diag by done;
    cbn [lookup list_lookup fmap option_fmap option_map Connection.bind
         Connection.supportsPing Connection.id];
    (eexists; split; [reflexivity|]);
    match goal with |- context [updateState "connected" Undefined ?v] =>
      destruct (updateState_fields "connected" Undefined v)
        as (S & C & T & R & _ & _ & _ & _ & _ & _ & _ & CN & E)
    end;
    rewrite S, C, T, R, CN, E; fields;
    rewrite !list_lookup_alter_eq, lookup_app_r, Nat.sub_diag by done;
    cbn [lookup list_lookup fmap option_fmap option_map Connection.bind
         Connection.supportsPing Connection.id Connection.writable
         Connection.bound Connection.sent Connection.close_calls];
    rewrite updateState_socket_id; fields;
    unfold Connection.bind;
    cbn [Connection.supportsPing Connection.id Connection.writable
         Connection.bound Connection.sent Connection.close_calls];
    rewrite <- ?app_assoc; cbn [app]; clear S C T R CN E.
  all: do 3 (split; [done|]).
  all: split; [by rewrite ?Hping|].
  all: split; [|done].
  all: intros t Heq Ht; simplify_eq.
  all: try (apply live_unavailable_snoc in Ht as [Ht|[_ Ht]]; [|discriminate Ht]).
  all: try apply (live_unavailable_abort_opt (Some a)) in Ht as [Ht _].
  all: by apply (live_unavailable_abort_opt (Some t)) in Ht as [_ Hne].
Qed.

(** A handshake [{action: "connected", connection: C}], delivered by a pending
    attempt while the manager has a current attempt: whatever the state was,
    the manager ends [connected] holding [C], with [C]'s id as socket id and
    the five connection callbacks bound on [C] after those it had; the
    manager's unavailable timer is no longer live; and the transition to
    [connected] is emitted, with [C] already held, unless the state was
    [connected] before. *)
Theorem handshake_connected_adopts
    (w : World) (r r0 : nat) (x : Runner.t) (h : Handshake) (conn : Connection.t) :
  runner w = Some r →
  runners w !! r0 = Some x → Runner.pending x = true →
  action h = "connected" → hs_connection h = Some conn →
  ∃ w', step (Strategy_calls_back r0 (Success h)) w = Returned w'
    ∧ state w' = "connected"
    ∧ connection w' = Some (length (connections w))
    ∧ socket_id w' = Some (Connection.id conn)
    ∧ connections w' !! length (connections w)
        = Some (Connection.Build (Connection.id conn) (Connection.supportsPing conn)
                  (Connection.writable conn)
                  (Connection.bound conn ++ connectionCallbackNames)
                  (Connection.sent conn) (Connection.close_calls conn))
    ∧ (∀ t, unavailableTimer w = Some t → ¬ live_unavailable (timers w') t)
    ∧ emitted w'
        = emitted w ++ (if bool_decide (state w ≠ "connected")
                        then transition (state w) "connected" Undefined
                               (Some (length (connections w)))
                        else []).
Proof.
  intros Hr Hx Hp Ha Hconn. cbn [step]. rewrite Hx, Hp.
  unfold connect_callback. fields. rewrite Hr, call_property_handshake, Ha.
  rewrite !(bool_decide_false (_ = "connected")) by done.
  rewrite bool_decide_true by done.
  destruct (connected_callback_result h conn
              (Runner_abort r (set_runners (<[r0:=Runner.deliver x]> (runners w)) w))
              Hconn)
    as (w' & -> & S & C & Sid & CN & U & _ & E).
  exists w'. fields. done.
Qed.

Lemma handshake_connected_adopts_witness :
  runner (connect fresh) = Some 0%nat
  ∧ ∃ w', step (Strategy_calls_back 0%nat (Success handshake_connected)) (connect fresh)
          = Returned w'
      ∧ state w' = "connected" ∧ socket_id w' = Some "42".
Proof.
  assert (H1 : runner (connect fresh) = Some 0%nat) by done.
  assert (H2 : runners (connect fresh) !! 0%nat
               = Some (Runner.Build 0 (strategy fresh) false false)) by done.
  split; [exact H1|].
  destruct (handshake_connected_adopts (connect fresh) 0%nat 0%nat _
              handshake_connected sample_connection H1 H2 eq_refl eq_refl eq_refl)
    as (w' & Hstep & Hs & _ & Hid & _).
  exists w'. split; [exact Hstep|]. split; [exact Hs|exact Hid].
Defined.

(** ** The retry timer's callback *)

Lemma connect_connection (w : World) : connection (connect w) = connection w.
Proof.
  unfold connect, setUnavailableTimer.
  destruct (connection w) eqn:Hc; [done|]. fields.
  destruct (updateState_fields "failed" Undefined w) as (_ & C1 & _).
  destruct (updateState_fields "unavailable" Undefined w) as (_ & C2 & _).
  destruct (updateState_fields "connecting" Undefined w) as (_ & C3 & _).
  case_bool_decide; [done|].
  destruct (negb (Strategy.isSupported (strategy w))); fields; [congruence|].
  case_bool_decide; fields; congruence.
Qed.

(** When a retry timer fires, the manager disconnects and connects again:
    it holds no connection afterwards, its previous attempt is aborted, and
    it is [failed] if the strategy is not supported, [unavailable] if the
    network is known to be offline, and otherwise [connecting] with one new
    attempt and one new unavailable timer. *)
Theorem retry_timer_reconnects (w : World) (t : nat) (x : Timer.t) :
  timers w !! t = Some x →
  Timer.callback x = RetryCallback → Timer.state x = Timer.Live →
  ∃ w', step (Timer_fires t) w = Returned w'
    ∧ connection w' = None
    ∧ (Strategy.isSupported (strategy w) = false →
         state w' = "failed"
         ∧ runners w' = abort_runner_opt (runner w) (runners w))
    ∧ (Strategy.isSupported (strategy w) = true → isOnline w = Some false →
         state w' = "unavailable"
         ∧ runners w' = abort_runner_opt (runner w) (runners w))
    ∧ (Strategy.isSupported (strategy w) = true → isOnline w ≠ Some false →
         state w' = "connecting"
         ∧ runners w' = abort_runner_opt (runner w) (runners w)
                          ++ [Runner.Build 0 (strategy w) false false]
         ∧ runner w' = Some (length (runners w))
         ∧ unavailableTimer w' = Some (length (timers w))
         ∧ timers w' !! length (timers w)
             = Some (Timer.Build (unavailableTimeout (options w))
                                 UnavailableCallback Timer.Live)).
Proof.
  intros Hx Hcb Hlive. cbn [step]. rewrite Hx.
  unfold Timer.is_live. rewrite Hlive, Hcb. cbn [timer_callback].
  eexists; split; [reflexivity|].
  set (w1 := set_timers (<[t:=Timer.fired x]> (timers w)) w).
  destruct (disconnect_fields w1)
    as (S & C & T & R & r & _ & _ & _ & st & on & op & _).
  assert (Hs : state (disconnect w1) ≠ "connecting") by by rewrite S.
  destruct (connect_outcome (disconnect w1) C Hs) as (Hf & Hu & Hok).
  rewrite st, on in *. subst w1. fields.
  split; [by rewrite connect_connection|].
  split; [|split].
  - intros Hsup. destruct (Hf Hsup) as (? & HR & _). by rewrite HR, R.
  - intros Hsup Hoff. destruct (Hu Hsup Hoff) as (? & HR & _). by rewrite HR, R.
  - intros Hsup Hon. destruct (Hok Hsup Hon) as (HS & HR & Hr & HT & HU).
    rewrite HS, HR, Hr, HT, HU, R, T, op. fields.
    split; [done|]. split; [done|].
    split; [by rewrite abort_runner_opt_length|].
    split; [by rewrite !abort_opt_length, length_insert|].
    rewrite lookup_app_r by (by rewrite !abort_opt_length, length_insert).
    by rewrite !abort_opt_length, length_insert, Nat.sub_diag.
Qed.

Lemma retry_timer_reconnects_witness :
  timers closed_by_transport !! 2%nat = Some (Timer.Build 1000 RetryCallback Timer.Live)
  ∧ ∃ w', step (Timer_fires 2%nat) closed_by_transport = Returned w'
      ∧ connection w' = None.
Proof.
  assert (H : timers closed_by_transport !! 2%nat
              = Some (Timer.Build 1000 RetryCallback Timer.Live)) by done.
  split; [exact H|].
  destruct (retry_timer_reconnects closed_by_transport 2%nat _ H eq_refl eq_refl)
    as (w' & Hstep & Hc & _).
  exists w'. split; [exact Hstep|exact Hc].
Defined.

(** ** The error tags of a handshake *)

(** [disconnect()] followed by [connect()], as the retry timer's callback
    runs them. *)
Lemma reconnect_fields (w : World) :
  connection (connect (disconnect w)) = None
  ∧ state (connect (disconnect w)) = reconnect_state (strategy w) (isOnline w)
  ∧ runners (connect (disconnect w))
      = abort_runner_opt (runner w) (runners w)
          ++ reconnect_attempts (strategy w) (isOnline w).
Proof.
  destruct (disconnect_fields w)
    as (S & C & _ & R & _ & _ & _ & _ & st & on & _).
  assert (Hs : state (disconnect w) ≠ "connecting") by by rewrite S.
  destruct (connect_outcome (disconnect w) C Hs) as (Hf & Hu & Hok).
  rewrite st, on, R in *.
  split; [by rewrite connect_connection|].
  unfold reconnect_state, reconnect_attempts.
  destruct (Strategy.isSupported (strategy w)) eqn:Hsup; cbn [negb].
  - case_bool_decide as Hon.
    + destruct (Hu eq_refl Hon) as (-> & -> & _). by rewrite app_nil_r.
    + destruct (Hok eq_refl Hon) as (-> & -> & _). done.
  - destruct (Hf eq_refl) as (-> & -> & _). by rewrite app_nil_r.
Qed.

(** The timer armed by [retryIn] is the next one of the store, and firing it
    reconnects. *)
Lemma retryIn_fires (d : Z) (w : World) :
  ∃ w'', step (Timer_fires (length (timers w))) (retryIn d w) = Returned w''
    ∧ connection w'' = None
    ∧ state w'' = reconnect_state (strategy w) (isOnline w)
    ∧ runners w''
        = abort_runner_opt (runner w) (runners w)
            ++ reconnect_attempts (strategy w) (isOnline w).
Proof.
  cbn [step].
  assert (Ht : timers (retryIn d w) !! length (timers w)
               = Some (Timer.Build (or_zero d) RetryCallback Timer.Live)).
  { unfold retryIn. fields. by rewrite lookup_app_r, Nat.sub_diag. }
  rewrite Ht. cbn [Timer.is_live Timer.state Timer.callback timer_callback].
  eexists; split; [reflexivity|].
  match goal with |- context [connect (disconnect ?v)] => set (w1 := v) end.
  destruct (reconnect_fields w1) as (C & S & R).
  rewrite C, S, R. subst w1. unfold retryIn. fields. done.
Qed.

(** A handshake [ssl_only], [backoff] or [retry], delivered by a pending
    attempt to a manager that has an attempt of its own: the manager's attempt
    is aborted and no other is started; one retry timer is armed, for 1000 ms
    under [backoff] and for 0 ms otherwise, and becomes the manager's retry
    timer; under [ssl_only] the encrypted flag is on and the strategy is the
    one the options give for it; state, connection and emitted events are as
    before.  When that timer fires the manager holds no connection and is
    [failed], [unavailable] or [connecting] as its strategy and the network
    have it, and the attempts are those aborted ones followed, when
    [connecting], by exactly one new attempt. *)
Theorem handshake_errors_schedule_retry
    (h : Handshake) (r r0 : nat) (x : Runner.t) (w : World) :
  runner w = Some r →
  runners w !! r0 = Some x → Runner.pending x = true →
  action h ∈ ["ssl_only"; "backoff"; "retry"] →
  ∃ w', step (Strategy_calls_back r0 (Success h)) w = Returned w'
    ∧ encrypted w' = (if bool_decide (action h = "ssl_only") then true else encrypted w)
    ∧ strategy w' = (if bool_decide (action h = "ssl_only")
                     then getStrategy (options w) (key w) true else strategy w)
    ∧ runners w' = alter Runner.abort r (<[r0 := Runner.deliver x]> (runners w))
    ∧ timers w'
        = timers w ++ [Timer.Build (if bool_decide (action h = "backoff") then 1000 else 0)
                                   RetryCallback Timer.Live]
    ∧ retryTimer w' = Some (length (timers w))
    ∧ state w' = state w ∧ connection w' = connection w ∧ emitted w' = emitted w
    ∧ ∃ w'', step (Timer_fires (length (timers w))) w' = Returned w''
        ∧ connection w'' = None
        ∧ state w'' = reconnect_state (strategy w') (isOnline w)
        ∧ runners w''
            = alter Runner.abort r (<[r0 := Runner.deliver x]> (runners w))
                ++ reconnect_attempts (strategy w') (isOnline w).
Proof.
  intros Hr Hx Hp Ha.
  set (aborted := alter Runner.abort r (<[r0:=Runner.deliver x]> (runners w))).
  set (w0 := Runner_abort r (set_runners (<[r0:=Runner.deliver x]> (runners w)) w)).
  assert (Hstep : step (Strategy_calls_back r0 (Success h)) w
                  = call_property handshakeCallbacks (action h) h w0).
  { cbn [step]. rewrite Hx, Hp. unfold connect_callback. fields. by rewrite Hr. }
  rewrite Hstep. clear Hstep.
  assert (Hfin : ∀ d w1,
    runner w1 = Some r → timers w1 = timers w → isOnline w1 = isOnline w →
    runners w1 = aborted →
    state w1 = state w → connection w1 = connection w → emitted w1 = emitted w →
    runners (retryIn d w1) = aborted
    ∧ timers (retryIn d w1) = timers w ++ [Timer.Build (or_zero d) RetryCallback Timer.Live]
    ∧ retryTimer (retryIn d w1) = Some (length (timers w))
    ∧ state (retryIn d w1) = state w ∧ connection (retryIn d w1) = connection w
    ∧ emitted (retryIn d w1) = emitted w
    ∧ ∃ w'', step (Timer_fires (length (timers w))) (retryIn d w1) = Returned w''
        ∧ connection w'' = None
        ∧ state w'' = reconnect_state (strategy (retryIn d w1)) (isOnline w)
        ∧ runners w'' = aborted ++ reconnect_attempts (strategy (retryIn d w1)) (isOnline w)).
  { intros d w1 Hr1 Ht1 Hon1 Hrs1 Hs1 Hc1 He1.
    destruct (retryIn_fires d w1) as (w'' & Hfire & C & S & R).
    rewrite Hr1, Hrs1, Hon1, Ht1 in *. cbn [abort_runner_opt] in R.
    assert (Hab : alter Runner.abort r aborted = aborted).
    { apply (abort_runner_twice (Some r)). }
    rewrite Hab in R.
    unfold retryIn at 1 2 3 4 5 6. fields. rewrite Hrs1, Ht1, Hs1, Hc1, He1.
    repeat (split; [done|]).
    exists w''. by replace (strategy (retryIn d w1)) with (strategy w1). }
  apply elem_of_cons in Ha as [Ha|Ha]; [|apply elem_of_cons in Ha as [Ha|Ha];
    [|apply elem_of_cons in Ha as [Ha|Ha]; [|by apply elem_of_nil in Ha]]];
    rewrite Ha; cbn [bool_decide decide_rel];
    (eexists; split; [reflexivity|]).
  - destruct (Hfin 0 (updateStrategy (set_encrypted true w0)))
      as (? & ? & ? & ? & ? & ? & ?); try done.
  - destruct (Hfin 1000 w0) as (? & ? & ? & ? & ? & ? & ?); try done.
  - destruct (Hfin 0 w0) as (? & ? & ? & ? & ? & ? & ?); try done.
Qed.

Lemma handshake_errors_schedule_retry_witness :
  runner (connect fresh) = Some 0%nat
  ∧ runners (connect fresh) !! 0%nat
      = Some (Runner.Build 0 (Strategy.Build false true) false false)
  ∧ ∃ w', step (Strategy_calls_back 0%nat (Success (handshake_of "backoff")))
               (connect fresh) = Returned w'
      ∧ timers w' = timers (connect fresh) ++ [Timer.Build 1000 RetryCallback Timer.Live]
      ∧ ∃ w'', step (Timer_fires (length (timers (connect fresh)))) w' = Returned w''
          ∧ state w'' = "connecting".
Proof.
  assert (Hr : runner (connect fresh) = Some 0%nat) by (vm_compute; reflexivity).
  assert (Hx : runners (connect fresh) !! 0%nat
               = Some (Runner.Build 0 (Strategy.Build false true) false false))
    by (vm_compute; reflexivity).
  assert (Ha : action (handshake_of "backoff") ∈ ["ssl_only"; "backoff"; "retry"]).
  { apply elem_of_cons; right; apply elem_of_cons; by left. }
  split; [exact Hr|]. split; [exact Hx|].
  destruct (handshake_errors_schedule_retry (handshake_of "backoff") 0 0 _ (connect fresh)
              Hr Hx eq_refl Ha)
    as (w' & Hstep & _ & Hst & _ & Ht & _ & _ & _ & _ & w'' & Hfire & _ & Hs & _).
  exists w'. split; [exact Hstep|]. split; [exact Ht|].
  exists w''. split; [exact Hfire|].
  rewrite Hs, Hst. vm_compute. reflexivity.
Defined.

(** A handshake [refused], delivered by a pending attempt to a manager that
    has an attempt of its own, is [disconnect()] after the abort of that
    attempt: the state ends [disconnected] with its transition emitted, no
    connection is held, no attempt is started and no timer armed; a timer
    that is still to fire was so before and is none of the manager's three,
    and the manager's retry timer no longer fires.  For a manager that
    refers to every retry timer that is to fire, none is to fire afterwards. *)
Theorem handshake_refused_disconnects
    (h : Handshake) (r r0 : nat) (x : Runner.t) (w : World) :
  runner w = Some r →
  runners w !! r0 = Some x → Runner.pending x = true →
  action h = "refused" →
  ∃ w', step (Strategy_calls_back r0 (Success h)) w = Returned w'
    ∧ state w' = "disconnected" ∧ connection w' = None
    ∧ runners w' = alter Runner.abort r (<[r0 := Runner.deliver x]> (runners w))
    ∧ length (timers w') = length (timers w)
    ∧ emitted w'
        = emitted w ++ (if bool_decide (state w ≠ "disconnected")
                        then transition (state w) "disconnected" Undefined (connection w)
                        else [])
    ∧ (∀ t y, timers w' !! t = Some y → Timer.state y = Timer.Live →
         timers w !! t = Some y
         ∧ retryTimer w ≠ Some t ∧ unavailableTimer w ≠ Some t
         ∧ activityTimer w ≠ Some t)
    ∧ (∀ t, retryTimer w = Some t → step (Timer_fires t) w' = Returned w')
    ∧ ((∀ t y, timers w !! t = Some y → Timer.callback y = RetryCallback →
          Timer.state y = Timer.Live → retryTimer w = Some t) →
       ∀ t y, timers w' !! t = Some y → Timer.callback y = RetryCallback →
         Timer.state y ≠ Timer.Live).
Proof.
  intros Hr Hx Hp Ha.
  set (w0 := Runner_abort r (set_runners (<[r0:=Runner.deliver x]> (runners w)) w)).
  assert (Hstep : step (Strategy_calls_back r0 (Success h)) w = Returned (disconnect w0)).
  { cbn [step]. rewrite Hx, Hp. unfold connect_callback. fields. by rewrite Hr, Ha. }
  rewrite Hstep. eexists; split; [reflexivity|].
  destruct (disconnect_fields w0)
    as (S & C & T & R & _ & _ & _ & _ & _ & _ & _ & E).
  assert (Hlive : ∀ t y, timers (disconnect w0) !! t = Some y →
            Timer.state y = Timer.Live →
            timers w !! t = Some y
            ∧ retryTimer w ≠ Some t ∧ unavailableTimer w ≠ Some t
            ∧ activityTimer w ≠ Some t).
  { intros t y Hy Hl. by destruct (disconnect_live w0 t y Hy Hl). }
  split; [done|]. split; [done|]. split.
  { rewrite R. subst w0. fields. rewrite Hr. apply (abort_runner_twice (Some r)). }
  split; [by rewrite T, !abort_opt_length|].
  split; [by rewrite E|].
  split; [exact Hlive|]. split.
  - intros t Ht. cbn [step].
    destruct (timers (disconnect w0) !! t) as [y|] eqn:Hy; [|done].
    unfold Timer.is_live. destruct (Timer.state y) eqn:Hl; try done.
    destruct (Hlive t y Hy Hl) as (_ & Hne & _). done.
  - intros Htracked t y Hy Hcb Hl.
    destruct (Hlive t y Hy Hl) as (Hy0 & Hne & _).
    by specialize (Htracked t y Hy0 Hcb Hl).
Qed.

Lemma handshake_refused_disconnects_witness :
  runner (connect closed_by_transport) = Some 1%nat
  ∧ runners (connect closed_by_transport) !! 1%nat
      = Some (Runner.Build 0 (Strategy.Build false true) false false)
  ∧ timers (connect closed_by_transport) !! 2%nat
      = Some (Timer.Build 1000 RetryCallback Timer.Live)
  ∧ (∀ t y, timers (connect closed_by_transport) !! t = Some y →
       Timer.callback y = RetryCallback → Timer.state y = Timer.Live →
       retryTimer (connect closed_by_transport) = Some t)
  ∧ ∃ w', step (Strategy_calls_back 1%nat (Success (handshake_of "refused")))
               (connect closed_by_transport) = Returned w'
      ∧ state w' = "disconnected"
      ∧ ∀ t y, timers w' !! t = Some y → Timer.callback y = RetryCallback →
          Timer.state y ≠ Timer.Live.
Proof.
  assert (Ht : ∀ t y, timers (connect closed_by_transport) !! t = Some y →
       Timer.callback y = RetryCallback → Timer.state y = Timer.Live →
       retryTimer (connect closed_by_transport) = Some t).
  { assert (Hrt : retryTimer (connect closed_by_transport) = Some 2%nat)
      by (vm_compute; reflexivity).
    rewrite Hrt. clear Hrt.
    remember (timers (connect closed_by_transport)) as l eqn:El.
    vm_compute in El. subst l.
    intros [|[|[|[|t]]]] y Hy Hcb Hl; simplify_eq/=; done. }
  assert (Hr : runner (connect closed_by_transport) = Some 1%nat)
    by (vm_compute; reflexivity).
  assert (Hx : runners (connect closed_by_transport) !! 1%nat
               = Some (Runner.Build 0 (Strategy.Build false true) false false))
    by (vm_compute; reflexivity).
  split; [exact Hr|]. split; [exact Hx|].
  split; [vm_compute; reflexivity|]. split; [exact Ht|].
  destruct (handshake_refused_disconnects (handshake_of "refused") 1 1 _
              (connect closed_by_transport) Hr Hx eq_refl eq_refl)
    as (w' & Hstep & Hs & _ & _ & _ & _ & _ & _ & Hnone).
  exists w'. split; [exact Hstep|]. split; [exact Hs|exact (Hnone Ht)].
Defined.

(** ** The connection callbacks *)



(** [ping] is answered with a "pusher:pong" event and [ping_request] with a
    "pusher:ping" event, sent on the connection the manager holds; [error] is
    passed on as an "error" event carrying the transport's error.  Nothing
    else changes: no state change, no timer, and the connection is not
    closed. *)
Theorem connection_events_translated
    (w : World) (c : nat) (conn : Connection.t) (arg : string) :
  connection w = Some c → connections w !! c = Some conn →
  ("ping" ∈ Connection.bound conn →
     step (Connection_emits c "ping" arg) w
     = Returned (set_connections
                   (<[c := (Connection.send_event "pusher:pong" "{}" None conn).2]>
                      (connections w)) w))
  ∧ ("ping_request" ∈ Connection.bound conn →
     step (Connection_emits c "ping_request" arg) w
     = Returned (set_connections
                   (<[c := (Connection.send_event "pusher:ping" "{}" None conn).2]>
                      (connections w)) w))
  ∧ ("error" ∈ Connection.bound conn →
     step (Connection_emits c "error" arg) w
     = Returned (set_emitted
                   (emitted w ++ [ {| ev_name := "error"; ev_data := WebSocketError arg;
                                      ev_state := state w; ev_connection := Some c |} ])
                   w)).
Proof.
  intros Hc Hconn.
  split; [|split]; intros Hb; cbn [step]; rewrite Hconn, bool_decide_true by done;
    unfold connectionCallbacks, send_event, Connection_send_event, emit.
  - rewrite !(bool_decide_false ("ping" = "message")) by done.
    rewrite bool_decide_true by done. by rewrite Hc, Hconn.
  - rewrite !(bool_decide_false ("ping_request" = "message")),
      !(bool_decide_false ("ping_request" = "ping")) by done.
    rewrite bool_decide_true by done. by rewrite Hc, Hconn.
  - rewrite !(bool_decide_false ("error" = "message")),
      !(bool_decide_false ("error" = "ping")),
      !(bool_decide_false ("error" = "ping_request")) by done.
    rewrite bool_decide_true by done. by rewrite Hc.
Qed.

Lemma connection_events_translated_witness :
  connection established = Some 0%nat
  ∧ step (Connection_emits 0%nat "ping" "") established
    = Returned (set_connections
        (<[0%nat := (Connection.send_event "pusher:pong" "{}" None
             (Connection.Build "42" false true
                ["message"; "ping"; "ping_request"; "error"; "closed"] [] 0)).2]>
           (connections established)) established).
Proof.
  assert (H1 : connection established = Some 0%nat) by done.
  assert (H2 : connections established !! 0%nat
    = Some (Connection.Build "42" false true
              ["message"; "ping"; "ping_request"; "error"; "closed"] [] 0)) by done.
  assert (H3 : "ping" ∈ ["message"; "ping"; "ping_request"; "error"; "closed"])
    by (apply list_elem_of_In; cbn; tauto).
  split; [exact H1|].
  exact (proj1 (connection_events_translated established 0%nat _ "" H1 H2) H3).
Defined.

(** ** The strategy's callback on error *)

Lemma strategy_fails_once error w r x :
  error ≠ "" →
  runner w = Some r → runners w !! r = Some x → Runner.pending x = true →
  strategy_fails error w
  = set_runner (Some (length (runners w)))
      (set_runners (<[r := Runner.deliver x]> (runners w)
                      ++ [Runner.Build 0 (strategy w) false false]) w).
Proof.
  intros He Hr Hx Hp. unfold strategy_fails. rewrite Hr. cbn [step]. rewrite Hx, Hp.
  unfold connect_callback. rewrite (bool_decide_true _ He). fields.
  by rewrite length_insert.
Qed.

Lemma strategy_fails_strategy error w :
  strategy (strategy_fails error w) = strategy w.
Proof.
  unfold strategy_fails. destruct (runner w) as [r|]; [|done]. cbn [step].
  destruct (runners w !! r) as [x|]; [|done].
  destruct (Runner.pending x); [|done].
  unfold connect_callback. case_bool_decide; fields; [done|].
  by destruct (runner _).
Qed.

(** However often the strategy reports an error in a row (an error that
    [if (error)] takes for one: any string but the empty one), the manager
    starts a new attempt at once, with retry count 0 again: its state,
    connection and timers stay as they are and nothing is emitted; after [n]
    errors [n] attempts have been added and the manager's attempt is the last
    one, still pending. *)
Theorem strategy_errors_retry_at_once
    (n : nat) (error : string) (w : World) (r : nat) (x : Runner.t) :
  error ≠ "" →
  runner w = Some r → runners w !! r = Some x → Runner.pending x = true →
  state (Nat.iter n (strategy_fails error) w) = state w
  ∧ connection (Nat.iter n (strategy_fails error) w) = connection w
  ∧ timers (Nat.iter n (strategy_fails error) w) = timers w
  ∧ emitted (Nat.iter n (strategy_fails error) w) = emitted w
  ∧ length (runners (Nat.iter n (strategy_fails error) w)) = (length (runners w) + n)%nat
  ∧ ∃ r' x',
      runner (Nat.iter n (strategy_fails error) w) = Some r'
      ∧ runners (Nat.iter n (strategy_fails error) w) !! r' = Some x'
      ∧ Runner.pending x' = true
      ∧ ((0 < n)%nat →
           r' = (length (runners w) + n - 1)%nat
           ∧ Runner.retryCount x' = 0
           ∧ Runner.started_on x' = strategy w).
Proof.
  intros He Hr Hx Hp. induction n as [|n IH].
  - cbn. repeat (split; [done || lia|]).
    exists r, x. repeat (split; [done|]). lia.
  - rewrite !Nat.iter_succ. set (w' := Nat.iter n (strategy_fails error) w) in *.
    destruct IH as (S & C & T & E & L & r' & x' & Hr' & Hx' & Hp' & _).
    assert (Hst : strategy w' = strategy w).
    { subst w'. clear. induction n as [|n IH]; [done|].
      by rewrite Nat.iter_succ, strategy_fails_strategy. }
    rewrite (strategy_fails_once error w' r' x' He Hr' Hx' Hp'). fields.
    rewrite length_app, length_insert, L, Hst. cbn [length].
    repeat (split; [done || lia|]).
    eexists _, _. split; [done|]. split.
    + rewrite lookup_app_r by (rewrite length_insert; lia).
      by rewrite length_insert, L, Nat.sub_diag.
    + split; [done|]. intros _. split; [lia|done].
Qed.

Lemma strategy_errors_retry_at_once_witness :
  "timeout" ≠ ""
  ∧ runner (connect fresh) = Some 0%nat
  ∧ state (Nat.iter 3 (strategy_fails "timeout") (connect fresh)) = state (connect fresh)
  ∧ length (runners (Nat.iter 3 (strategy_fails "timeout") (connect fresh)))
    = (length (runners (connect fresh)) + 3)%nat.
Proof.
  assert (H0 : "timeout" ≠ "") by done.
  assert (H1 : runner (connect fresh) = Some 0%nat) by done.
  assert (H2 : runners (connect fresh) !! 0%nat
               = Some (Runner.Build 0 (strategy fresh) false false)) by done.
  split; [exact H0|]. split; [exact H1|].
  destruct (strategy_errors_retry_at_once 3 "timeout" (connect fresh) 0%nat _
              H0 H1 H2 eq_refl) as (S & _ & _ & _ & L & _).
  split; [exact S|exact L].
Defined.

(** ** Witnesses *)

Lemma strategy_follows_encryption_witness :
  encrypted (run [Call_connect;
                  Strategy_calls_back 0%nat (Success (handshake_of "ssl_only"))] fresh)
    = true
  ∧ encrypted (run [Timer_fires 1%nat; Call_disconnect]
                 (run [Call_connect;
                       Strategy_calls_back 0%nat (Success (handshake_of "ssl_only"))]
                      fresh)) = true.
Proof.
  assert (H : encrypted (run [Call_connect;
                  Strategy_calls_back 0%nat (Success (handshake_of "ssl_only"))] fresh)
              = true) by (vm_compute; reflexivity).
  split; [exact H|].
  exact (proj1 (proj2 (proj2 (strategy_follows_encryption _
    [Timer_fires 1%nat; Call_disconnect]))) H).
Defined.

Lemma held_connection_is_bound_witness :
  connection (run [Call_connect; Strategy_calls_back 0%nat (Success handshake_connected)]
                  (ConnectionManager "app-key" sample_options None)) = Some 0%nat
  ∧ ∃ conn,
      connections (run [Call_connect;
                        Strategy_calls_back 0%nat (Success handshake_connected)]
                       (ConnectionManager "app-key" sample_options None)) !! 0%nat
        = Some conn
      ∧ "closed" ∈ Connection.bound conn.
Proof.
  assert (H : connection
    (run [Call_connect; Strategy_calls_back 0%nat (Success handshake_connected)]
         (ConnectionManager "app-key" sample_options None)) = Some 0%nat)
    by (vm_compute; reflexivity).
  split; [exact H|].
  destruct (held_connection_is_bound "app-key" sample_options None
              [Call_connect; Strategy_calls_back 0%nat (Success handshake_connected)]
              0%nat H) as (conn & Hl & Hb).
  exists conn. split; [exact Hl|].
  apply Hb. apply list_elem_of_In. cbn. tauto.
Defined.

Lemma heartbeat_while_connected_witness :
  connection established = Some 0%nat
  ∧ ∃ w', timer_callback PongCallback established = Returned w'
      ∧ timers w' = timers established.
Proof.
  assert (H1 : connection established = Some 0%nat) by done.
  assert (H2 : connections established !! 0%nat
    = Some (Connection.Build "42" false true
              ["message"; "ping"; "ping_request"; "error"; "closed"] [] 0)) by done.
  split; [exact H1|].
  destruct (proj2 (proj2 (heartbeat_while_connected established 0%nat _ "" H1 H2)))
    as (w' & Hcb & _ & Ht).
  exists w'. split; [exact Hcb|exact Ht].
Defined.

Lemma unavailable_and_heartbeat_timers_unique_witness :
  live_unavailable
    (timers (run [Call_connect] (ConnectionManager "app-key" sample_options None)))
    0%nat
  ∧ 0%nat = 0%nat.
Proof.
  assert (H : live_unavailable
    (timers (run [Call_connect] (ConnectionManager "app-key" sample_options None)))
    0%nat).
  { eexists. split; [vm_compute; reflexivity|]. by split. }
  split; [exact H|].
  exact (proj1 (unavailable_and_heartbeat_timers_unique "app-key" sample_options None
                  [Call_connect] 0%nat 0%nat) H H).
Defined.

(** ** What [disconnect()] cancels *)

(** After [disconnect()] the manager is [disconnected] and holds no
    connection, and what it has cancelled can no longer reach it: the firing
    of its retry, unavailable or activity timer and the callback of its
    attempt leave it as it is. *)
Theorem disconnect_cancels (w : World) :
  state (disconnect w) = "disconnected"
  ∧ connection (disconnect w) = None
  ∧ (∀ t, retryTimer w = Some t ∨ unavailableTimer w = Some t
          ∨ activityTimer w = Some t →
          step (Timer_fires t) (disconnect w) = Returned (disconnect w))
  ∧ (∀ r result, runner w = Some r →
          step (Strategy_calls_back r result) (disconnect w) = Returned (disconnect w)).
Proof.
  destruct (disconnect_fields w) as (S & C & T & R & _).
  split; [done|]. split; [done|]. split.
  - intros t Ht. cbn [step].
    destruct (timers (disconnect w) !! t) as [x|] eqn:Hx; [|done].
    destruct (Timer.is_live x) eqn:Hlive; [|done].
    assert (Hl : Timer.state x = Timer.Live).
    { unfold Timer.is_live in Hlive. by destruct (Timer.state x). }
    destruct (disconnect_live w t x Hx Hl) as (_ & H1 & H2 & H3).
    by destruct Ht as [?|[?|?]].
  - intros r result Hr. cbn [step]. rewrite R, Hr. cbn [abort_runner_opt].
    rewrite list_lookup_alter_eq.
    destruct (runners w !! r) as [x|]; [|done]. cbn.
    unfold Runner.pending, Runner.abort. done.
Qed.

Lemma disconnect_cancels_witness :
  activityTimer established = Some 1%nat
  ∧ step (Timer_fires 1%nat) (disconnect established) = Returned (disconnect established).
Proof.
  assert (H : activityTimer established = Some 1%nat) by done.
  split; [exact H|].
  apply (proj1 (proj2 (proj2 (disconnect_cancels established)))).
  right. right. exact H.
Defined.

(** ** The events of [connect()] *)

(** Past its two guards, [connect()] emits exactly the transition to the
    state it ends in, with no connection held, and nothing when it ends in
    the state it started from: [failed] for an unsupported strategy,
    [unavailable] for a network known to be offline, [connecting]
    otherwise. *)
Theorem connect_emits_its_transition (w : World) :
  connection w = None → state w ≠ "connecting" →
  emitted (connect w)
  = emitted w
    ++ (if bool_decide (state w ≠ state (connect w))
        then transition (state w) (state (connect w)) Undefined None
        else [])
  ∧ state (connect w)
    = (if negb (Strategy.isSupported (strategy w)) then "failed"
       else if bool_decide (isOnline w = Some false) then "unavailable"
       else "connecting").
Proof.
  intros Hc Hs. unfold connect, setUnavailableTimer. rewrite Hc, (bool_decide_false _ Hs).
  fields.
  destruct (updateState_fields "failed" Undefined w)
    as (S1 & _ & _ & _ & _ & _ & _ & _ & _ & _ & _ & _ & E1).
  destruct (updateState_fields "unavailable" Undefined w)
    as (S2 & _ & _ & _ & _ & _ & _ & _ & _ & _ & _ & _ & E2).
  destruct (updateState_fields "connecting" Undefined w)
    as (S3 & _ & _ & _ & _ & _ & _ & _ & _ & _ & _ & _ & E3).
  destruct (negb (Strategy.isSupported (strategy w))); fields;
    [by rewrite S1, E1, Hc|].
  destruct (bool_decide (isOnline w = Some false)); fields;
    [by rewrite S2, E2, Hc|by rewrite S3, E3, Hc].
Qed.

Lemma connect_emits_its_transition_witness :
  connection fresh = None
  ∧ emitted (connect fresh)
    = emitted fresh
      ++ (if bool_decide (state fresh ≠ state (connect fresh))
          then transition (state fresh) (state (connect fresh)) Undefined None
          else []).
Proof.
  assert (H0 : connection fresh = None) by done.
  assert (H1 : state fresh ≠ "connecting") by done.
  split; [exact H0|].
  exact (proj1 (connect_emits_its_transition fresh H0 H1)).
Defined.
